(** * http-server-v2: the product store and the request router

    A shallow embedding of [models/product.model.js] (the in-memory product
    store) and of [server.js] (the request handler), with the properties of
    the specification stated and proved over them.

    How the program is modelled:
    - JavaScript values are a tagged union [value]. Numbers are IEEE 754
      binary64 values ([spec_float] with precision 53 and maximal exponent
      1024), and [Number(string)] rounds a literal to the nearest of them,
      ties to even. A string that is a value is the list of its UTF-16
      code units; paths, method names and property names are strings of
      8-bit characters, and an 8-bit string is read as a value with one
      code unit for each character.
    - An object is the finite map of its own properties; reading a
      property that is not there gives [VUndefined]. The records of the
      store are objects.
    - The module-level array [products] is passed through the store
      operations explicitly: an operation takes the array and returns the
      new one next to its result.
    - A request is handled in one step: its URL is already parsed and its
      body already received, so the handler of a POST or PATCH runs from the
      [JSON.parse] of its [end] callback on. An exception that nothing
      catches is the result [Throw].
    - A JSON response carries the value given to [JSON.stringify]; a file
      response carries the path of the file that is streamed, and a failure
      of the stream is not modelled. *)

From Stdlib Require Import ZArith Ascii String List Bool Lia.
From Stdlib Require Import Floats.SpecFloat.
From stdpp Require Import gmap strings list fin_maps.

#[local] Set Warnings "-register-all".
#[local] Open Scope string_scope.

(* ===================================================================== *)
(** ** Numbers *)
(* ===================================================================== *)

Module Num.

Abbreviation number := spec_float.

Definition prec : Z := 53.
Definition emax : Z := 1024.

Definition NaN : number := S754_nan.

(** The number denoted by an integer literal, rounded to nearest-even. *)
Definition of_Z (z : Z) : number := binary_normalize prec emax z 0 false.

(** [m * 10^e] for [0 <= m], with sign [neg], rounded to nearest-even:
    the numeric value of a decimal literal. *)
Definition of_decimal (neg : bool) (m e : Z) : number :=
  match m with
  | Z0 => S754_zero neg
  | Zpos p =>
      if (0 <=? e)%Z
      then binary_round prec emax neg (Z.to_pos (m * 10 ^ e)) 0
      else
        let '(q, e', l) := SFdiv_core_binary prec emax m 0 (10 ^ (- e)) 0 in
        binary_round_aux prec emax neg q e' l
  | Zneg _ => NaN
  end.

(** [x === y] on numbers: NaN differs from everything, [+0 === -0]. *)
Definition eqb (x y : number) : bool := SFeqb x y.

(** [Number.isInteger(x)]: finite, with no fractional part. *)
Definition isInteger (x : number) : bool :=
  match x with
  | S754_zero _ => true
  | S754_finite _ m e =>
      if (0 <=? e)%Z then true
      else (Z.pos m mod 2 ^ (- e) =? 0)%Z
  | S754_infinity _ | S754_nan => false
  end.

End Num.

Abbreviation number := Num.number.

(* ===================================================================== *)
(** ** Strings as values: UTF-16 code units *)
(* ===================================================================== *)

Module Utf16.

(** A JavaScript string: the list of its code units. *)
Definition jsstring : Type := list N.

(** A string of 8-bit characters as a value: one code unit for each. *)
Definition of_ascii (s : string) : jsstring :=
  map N_of_ascii (list_ascii_of_string s).

(** [a === b] on strings. *)
Fixpoint eqb (a b : jsstring) : bool :=
  match a, b with
  | [], [] => true
  | x :: a', y :: b' => (x =? y)%N && eqb a' b'
  | _, _ => false
  end.

(** The surrogate code units: [0xD800..0xDBFF] lead, [0xDC00..0xDFFF]
    trail. *)
Definition is_lead (u : N) : bool := ((55296 <=? u) && (u <=? 56319))%N.

Definition is_trail (u : N) : bool := ((56320 <=? u) && (u <=? 57343))%N.

(** [StringToCodePoints]: a lead surrogate with the trail surrogate behind
    it is one code point, every other code unit is a code point of its
    own. *)
Fixpoint code_points (s : jsstring) : list N :=
  match s with
  | [] => []
  | u :: s' =>
      match s' with
      | v :: rest =>
          if is_lead u && is_trail v
          then (65536 + (u - 55296) * 1024 + (v - 56320))%N :: code_points rest
          else u :: code_points s'
      | [] => [u]
      end
  end.

(** [UTF16EncodeCodePoint] *)
Definition units_of_point (cp : N) : jsstring :=
  if (cp <? 65536)%N then [cp]
  else [(55296 + (cp - 65536) / 1024)%N; (56320 + (cp - 65536) mod 1024)%N].

(** [CodePointsToString] *)
Definition of_points (cps : list N) : jsstring :=
  List.flat_map units_of_point cps.

(** [s.split('')]: the code units of the string, one string each. *)
Definition split_chars (s : jsstring) : list jsstring :=
  map (fun u => [u]) s.

(** [parts.join('')] *)
Fixpoint join (parts : list jsstring) : jsstring :=
  match parts with
  | [] => []
  | part :: parts' => (part ++ join parts')%list
  end.

End Utf16.

Abbreviation jsstring := Utf16.jsstring.

Coercion Utf16.of_ascii : string >-> Utf16.jsstring.

(* ===================================================================== *)
(** ** Values and objects *)
(* ===================================================================== *)

Inductive value : Type :=
| VUndefined
| VNull
| VBool (b : bool)
| VNum (n : number)
| VStr (s : jsstring)
| VArr (elems : list value)
| VObj (props : gmap string value).

(** An object: its own properties. *)
Abbreviation object := (gmap string value).

(** [o.k] *)
Definition get_prop (o : object) (k : string) : value :=
  default VUndefined (o !! k).

(** [o.k = v] *)
Definition set_prop (o : object) (k : string) (v : value) : object :=
  <[k := v]> o.

(** [a === b]. Two objects (or arrays) are equal only when they are the
    same object; values here carry no identity, and an object that occurs at
    two places stands for two objects. *)
Definition strict_eq (a b : value) : bool :=
  match a, b with
  | VUndefined, VUndefined => true
  | VNull, VNull => true
  | VBool x, VBool y => Bool.eqb x y
  | VNum x, VNum y => Num.eqb x y
  | VStr x, VStr y => Utf16.eqb x y
  | _, _ => false
  end.

(** [v === undefined || v === null] *)
Definition nullish (v : value) : bool :=
  match v with
  | VUndefined | VNull => true
  | _ => false
  end.

(** [a ?? b] *)
Definition coalesce (a b : value) : value :=
  if nullish a then b else a.

(** [Array.prototype.find] *)
Fixpoint find {A : Type} (p : A -> bool) (l : list A) : option A :=
  match l with
  | [] => None
  | x :: l' => if p x then Some x else find p l'
  end.

(** [Array.prototype.findIndex]; [None] stands for the result [-1]. *)
Fixpoint findIndex {A : Type} (p : A -> bool) (l : list A) : option nat :=
  match l with
  | [] => None
  | x :: l' => if p x then Some 0 else S <$> findIndex p l'
  end.

(* ===================================================================== *)
(** ** The product store ([models/product.model.js]) *)
(* ===================================================================== *)

Module Product.

(** The state of the module: the array [products]. *)
Abbreviation store := (list object).

Definition record (id : Z) (title sku : string) (price : Z) : object :=
  {[ "id" := VNum (Num.of_Z id);
     "title" := VStr title;
     "sku" := VStr sku;
     "price" := VNum (Num.of_Z price) ]}.

(** The array the module starts with. *)
Definition products : store :=
  [ record 1001 "T-Shirt" "ABC-1001" 49900;
    record 1002 "Cap" "ABC-1002" 19900;
    record 1003 "Jeans" "ABC-1003" 99900 ].

(** [product => product.id === id] *)
Definition has_id (id : value) (product : object) : bool :=
  strict_eq (get_prop product "id") id.

Definition all (st : store) : store := st.

Definition getById (st : store) (id : value) : option object :=
  find (has_id id) st.

Definition add (st : store) (product : object) : store :=
  st ++ [product].

Definition remove (st : store) (id : value) : bool * store :=
  match findIndex (has_id id) st with
  | None => (false, st)
  | Some targetIndex => (true, delete targetIndex st)
  end.

(** [products[i].k = data.k ?? products[i].k] *)
Definition assign (data : object) (k : string) (i : nat) (st : store) : store :=
  alter (fun p => set_prop p k (coalesce (get_prop data k) (get_prop p k))) i st.

Definition update (st : store) (id : value) (data : object) : bool * store :=
  match findIndex (has_id id) st with
  | None => (false, st)
  | Some targetIndex =>
      let st1 := assign data "title" targetIndex st in
      let st2 := assign data "sku" targetIndex st1 in
      let st3 := assign data "price" targetIndex st2 in
      (true, st3)
  end.

End Product.

(* ===================================================================== *)
(** ** Strings *)
(* ===================================================================== *)

Module Str.

Definition code (c : ascii) : N := N_of_ascii c.

Definition is_digit (c : ascii) : bool :=
  ((48 <=? code c) && (code c <=? 57))%N.

Definition is_upper (c : ascii) : bool :=
  ((65 <=? code c) && (code c <=? 90))%N.

Definition lower_char (c : ascii) : ascii :=
  if is_upper c then ascii_of_N (code c + 32) else c.

Fixpoint map_chars (f : ascii -> ascii) (s : string) : string :=
  match s with
  | EmptyString => EmptyString
  | String c s' => String (f c) (map_chars f s')
  end.

(** [s.toLowerCase()], on ASCII text. *)
Definition toLowerCase (s : string) : string := map_chars lower_char s.

(** [s.split(sep)] for a separator of one character. *)
Fixpoint split (sep : ascii) (s : string) : list string :=
  match s with
  | EmptyString => [EmptyString]
  | String c s' =>
      if Ascii.eqb c sep then EmptyString :: split sep s'
      else match split sep s' with
           | part :: parts => String c part :: parts
           | [] => [String c EmptyString]
           end
  end.

(** [s.startsWith(p)] *)
Definition startsWith (s p : string) : bool := String.prefix p s.

Fixpoint drop (n : nat) (s : string) : string :=
  match n, s with
  | O, _ => s
  | S n', String _ s' => drop n' s'
  | S _, EmptyString => EmptyString
  end.

(** [s.replace(pat, rep)] with a string pattern: the first occurrence. *)
Fixpoint replace (pat rep s : string) : string :=
  if String.prefix pat s then rep ++ drop (String.length pat) s
  else match s with
       | EmptyString => EmptyString
       | String c s' => String c (replace pat rep s')
       end.

(** [s.slice(from, to)] for [0 <= from <= to]. *)
Definition slice (from to : nat) (s : string) : string :=
  String.substring from (to - from) s.

(** The white space that [Number] strips, within ASCII: TAB, LF, VT, FF,
    CR and SP. *)
Definition is_space (c : ascii) : bool :=
  (((9 <=? code c) && (code c <=? 13)) || (code c =? 32))%N.

Fixpoint trim_start (s : string) : string :=
  match s with
  | String c s' => if is_space c then trim_start s' else s
  | EmptyString => EmptyString
  end.

Fixpoint trim_end (s : string) : string :=
  match s with
  | String c s' =>
      match trim_end s' with
      | EmptyString => if is_space c then EmptyString else String c EmptyString
      | t => String c t
      end
  | EmptyString => EmptyString
  end.

Definition trim (s : string) : string := trim_end (trim_start s).

End Str.

(* ===================================================================== *)
(** ** [Number(string)] *)
(* ===================================================================== *)

Module ToNumber.

(** The value of a digit in a base up to 16, if it is one. *)
Definition digit (base : Z) (c : ascii) : option Z :=
  let n := Z.of_N (Str.code c) in
  let d :=
    if Str.is_digit c then Some (n - 48)%Z
    else if ((97 <=? n) && (n <=? 102))%Z then Some (n - 87)%Z
    else if ((65 <=? n) && (n <=? 70))%Z then Some (n - 55)%Z
    else None in
  match d with
  | Some v => if (v <? base)%Z then Some v else None
  | None => None
  end.

(** The value of a string of digits; [None] if some character is not a
    digit of the base. *)
Fixpoint digits (base : Z) (acc : Z) (s : string) : option Z :=
  match s with
  | EmptyString => Some acc
  | String c s' =>
      match digit base c with
      | Some d => digits base (acc * base + d)%Z s'
      | None => None
      end
  end.

(** The longest prefix of decimal digits, and what follows it. *)
Fixpoint span_digits (s : string) : string * string :=
  match s with
  | String c s' =>
      if Str.is_digit c
      then let '(ds, rest) := span_digits s' in (String c ds, rest)
      else (EmptyString, s)
  | EmptyString => (EmptyString, EmptyString)
  end.

(** [0x..], [0o..], [0b..]: at least one digit, nothing else. *)
Definition radix_literal (base : Z) (ds : string) : number :=
  match ds with
  | EmptyString => Num.NaN
  | _ => match digits base 0 ds with
         | Some v => Num.of_Z v
         | None => Num.NaN
         end
  end.

(** An optional sign. *)
Definition sign (s : string) : bool * string :=
  match s with
  | String "+" s' => (false, s')
  | String "-" s' => (true, s')
  | _ => (false, s)
  end.

(** The exponent part: empty, or [e] or [E], an optional sign and at least
    one digit, up to the end of the string. *)
Definition exponent (s : string) : option Z :=
  match s with
  | EmptyString => Some 0%Z
  | String c s' =>
      if (Ascii.eqb c "e" || Ascii.eqb c "E")
      then
        let '(neg, ds) := sign s' in
        match ds with
        | EmptyString => None
        | _ => match digits 10 0 ds with
               | Some v => Some (if neg then (- v)%Z else v)
               | None => None
               end
        end
      else None
  end.

(** A decimal literal: [Infinity], or digits with an optional fraction
    and exponent, after an optional sign. *)
Definition decimal_literal (s : string) : number :=
  let '(neg, body) := sign s in
  if String.eqb body "Infinity" then S754_infinity neg
  else
    let '(ip, r1) := span_digits body in
    let '(fp, r2) :=
      match r1 with
      | String "." r => span_digits r
      | _ => (EmptyString, r1)
      end in
    match ip ++ fp with
    | EmptyString => Num.NaN
    | ds =>
        match digits 10 0 ds, exponent r2 with
        | Some m, Some e =>
            Num.of_decimal neg m (e - Z.of_nat (String.length fp))
        | _, _ => Num.NaN
        end
    end.

(** [Number(s)] for a string [s]. *)
Definition of_string (s : string) : number :=
  match Str.trim s with
  | EmptyString => S754_zero false
  | String "0" (String c ds) as t =>
      if (Ascii.eqb c "x" || Ascii.eqb c "X") then radix_literal 16 ds
      else if (Ascii.eqb c "o" || Ascii.eqb c "O") then radix_literal 8 ds
      else if (Ascii.eqb c "b" || Ascii.eqb c "B") then radix_literal 2 ds
      else decimal_literal t
  | t => decimal_literal t
  end.

(** [Number(v)] where [v] is a string or [undefined]. *)
Definition Number (v : option string) : number :=
  match v with
  | Some s => of_string s
  | None => Num.NaN
  end.

End ToNumber.

(* ===================================================================== *)
(** ** [path.extname] (POSIX) *)
(* ===================================================================== *)

Module Path.

(** The variables of the loop of [extname]; [-1] means not yet seen. *)
Record scan := Scan {
  startDot : Z;
  startPart : Z;
  end_ : Z;
  matchedSlash : bool;
  preDotState : Z
}.

Definition scan0 : scan := Scan (-1) 0 (-1) true 0.

(** One character of the scan, at index [i]; the flag is the [break]. *)
Definition scan_step (c : ascii) (i : Z) (st : scan) : scan * bool :=
  if Ascii.eqb c "/" then
    if negb (matchedSlash st)
    then (Scan (startDot st) (i + 1) (end_ st) (matchedSlash st) (preDotState st), true)
    else (st, false)
  else
    let st :=
      if (end_ st =? -1)%Z
      then Scan (startDot st) (startPart st) (i + 1) false (preDotState st)
      else st in
    let st :=
      if Ascii.eqb c "." then
        if (startDot st =? -1)%Z
        then Scan i (startPart st) (end_ st) (matchedSlash st) (preDotState st)
        else if negb (preDotState st =? 1)%Z
        then Scan (startDot st) (startPart st) (end_ st) (matchedSlash st) 1
        else st
      else if negb (startDot st =? -1)%Z
      then Scan (startDot st) (startPart st) (end_ st) (matchedSlash st) (-1)
      else st in
    (st, false).

(** The loop, from the last character down to the first: [chars] are the
    characters still to visit, last one first, and [i] is the index of the
    first of them. *)
Fixpoint scan_loop (chars : list ascii) (i : Z) (st : scan) : scan :=
  match chars with
  | [] => st
  | c :: chars' =>
      let '(st', stop) := scan_step c i st in
      if stop then st' else scan_loop chars' (i - 1) st'
  end.

Definition extname (path : string) : string :=
  let st :=
    scan_loop (rev (list_ascii_of_string path))
              (Z.of_nat (String.length path) - 1) scan0 in
  if ((startDot st =? -1) || (end_ st =? -1) || (preDotState st =? 0)
      || ((preDotState st =? 1)
          && (startDot st =? end_ st - 1)
          && (startDot st =? startPart st + 1)))%Z
  then EmptyString
  else Str.slice (Z.to_nat (startDot st)) (Z.to_nat (end_ st)) path.

(** [normalizeString]: the segments between slashes, without the empty
    ones and the [.] ones, each [..] taking back the segment before it;
    above the start a [..] is kept when [allowAboveRoot], dropped
    otherwise. [res] holds the segments kept so far, last one first. *)
Fixpoint normalizeSegments (allowAboveRoot : bool) (segs res : list string)
  : list string :=
  match segs with
  | [] => rev res
  | seg :: segs' =>
      if String.eqb seg "" || String.eqb seg "." then
        normalizeSegments allowAboveRoot segs' res
      else if String.eqb seg ".." then
        match res with
        | last :: res' =>
            if String.eqb last ".."
            then normalizeSegments allowAboveRoot segs'
                   (if allowAboveRoot then seg :: res else res)
            else normalizeSegments allowAboveRoot segs' res'
        | [] =>
            normalizeSegments allowAboveRoot segs'
              (if allowAboveRoot then [seg] else [])
        end
      else normalizeSegments allowAboveRoot segs' (seg :: res)
  end.

Definition endsWithSlash (path : string) : bool :=
  match rev (list_ascii_of_string path) with
  | c :: _ => Ascii.eqb c "/"
  | [] => false
  end.

(** [path.normalize] *)
Definition normalize (path : string) : string :=
  match path with
  | EmptyString => "."
  | _ =>
      let isAbsolute := String.prefix "/" path in
      let trailingSeparator := endsWithSlash path in
      let res :=
        String.concat "/"
          (normalizeSegments (negb isAbsolute) (Str.split "/" path) []) in
      match res with
      | EmptyString =>
          if isAbsolute then "/"
          else if trailingSeparator then "./" else "."
      | _ =>
          let res := if trailingSeparator then res ++ "/" else res in
          if isAbsolute then "/" ++ res else res
      end
  end.

(** [path.join(...paths)] *)
Definition join (paths : list string) : string :=
  match List.filter (fun p => negb (String.eqb p "")) paths with
  | [] => "."
  | parts => normalize (String.concat "/" parts)
  end.

End Path.

(* ===================================================================== *)
(** ** The request handler ([server.js]) *)
(* ===================================================================== *)

Module Server.

(** What the handler can throw. Nothing catches it. *)
Inductive error : Type :=
| TypeError
| SyntaxError.

Inductive result (A : Type) : Type :=
| Ok (a : A)
| Throw (e : error).
Arguments Ok {A} a.
Arguments Throw {A} e.

(** What is written to the response: a text, the [JSON.stringify] of a
    value, or the content of a file, streamed. *)
Inductive payload : Type :=
| Text (s : string)
| Json (data : value)
| File (filePath : string).

Record response := Response {
  statusCode : Z;
  contentType : string;
  body : payload
}.

(** What the handler consults of its surroundings: the directory of
    [server.js] ([__dirname]), the file system ([fs.existsSync]), and the
    uppercase mapping of Unicode as the engine has it, which gives the
    code points a code point outside ASCII is mapped to. *)
Record runtime := Runtime {
  dirname : string;
  existsSync : string -> bool;
  uppercaseMapping : N -> list N
}.

(** [query.input] after [url.parse(req.url, true)]: absent, one string,
    or an array when the parameter is repeated. *)
Inductive query_value : Type :=
| QAbsent
| QString (s : jsstring)
| QArray (l : list jsstring).

(** A request, once its URL is parsed and its body is received:
    [req.method], [parsedUrl.pathname], [query.input], and what
    [JSON.parse] makes of the body: [None] when it throws, the object
    otherwise. Bodies that decode to something that is not an object are
    not represented: the store holds objects. *)
Record request := Request {
  method : string;
  pathname : string;
  query_input : query_value;
  json_body : option object
}.

Definition textResponse (statusCode : Z) (data : string) : response :=
  Response statusCode "text/plain" (Text data).

Definition htmlResponse (statusCode : Z) (data : string) : response :=
  Response statusCode "text/html" (Text data).

Definition jsonResponse (statusCode : Z) (data : value) : response :=
  Response statusCode "application/json" (Json data).

Definition notFoundResponse : response :=
  htmlResponse 404 "<h1>404 | Not Found</h1>".

(** The [switch] of [staticFileResponse]. *)
Definition contentTypeOf (ext : string) : string :=
  if String.eqb ext ".html" then "text/html"
  else if String.eqb ext ".jpg" then "image/jpeg"
  else if String.eqb ext ".jpeg" then "image/jpeg"
  else if String.eqb ext ".png" then "image/png"
  else if String.eqb ext ".css" then "text/css"
  else if String.eqb ext ".js" then "application/javascript"
  else if String.eqb ext ".pdf" then "application/pdf"
  else if String.eqb ext ".csv" then "text/csv"
  else if String.eqb ext ".txt" then "text/plain"
  else "application/octet-stream".

(** The head of the answer: the 404 page when the file is not there, else
    status 200 with the content type of the extension, the body being the
    file, streamed. The stream's [error] listener runs after the head is
    written and is no part of the answer modelled here. *)
Definition staticFileResponse (rt : runtime) (filePath : string) : response :=
  if negb (existsSync rt filePath) then notFoundResponse
  else
    let ext := Str.toLowerCase (Path.extname filePath) in
    let contentType := contentTypeOf ext in
    Response 200 contentType (File filePath).

Definition dq : string := String (ascii_of_nat 34) EmptyString.
Definition nl : string := String (ascii_of_nat 10) EmptyString.

Definition homePageItem (href label : string) : string :=
  "                    <li>" ++ nl ++
  "                        <a href=" ++ dq ++ href ++ dq ++ ">" ++ label ++ "</a>" ++ nl ++
  "                    </li>" ++ nl.

Definition homePageHtml : string :=
  nl ++
  "            <h1>Node.js HTTP Server | Routing</h1>" ++ nl ++
  "            <div>" ++ nl ++
  "                <ul>" ++ nl ++
  homePageItem "/" "Home" ++
  homePageItem "/plain-text" "Plain Text" ++
  homePageItem "/json" "JSON" ++
  homePageItem "/echo?input=Node.js" "Echo" ++
  homePageItem "/mern" "MERN" ++
  homePageItem "/mongodb" "MongoDB" ++
  homePageItem "/express" "Express" ++
  homePageItem "/react" "React" ++
  homePageItem "/nodejs" "Node.js" ++
  "                </ul>" ++ nl ++
  "            </div>" ++ nl ++
  "        ".

(** [x === s] where [x] is a string or [undefined]. *)
Definition is_string (x : option string) (s : string) : bool :=
  match x with
  | Some x => String.eqb x s
  | None => false
  end.

(** [query.input || 'Hello'] *)
Definition inputOrHello (q : query_value) : query_value :=
  match q with
  | QAbsent => QString "Hello"
  | QString [] => QString "Hello"
  | _ => q
  end.

(** The upper case of one code point: an ASCII letter [a..z] goes to
    [A..Z], every other ASCII character stays, and a code point outside
    ASCII goes where the uppercase mapping of the engine sends it. *)
Definition upperPoint (rt : runtime) (cp : N) : list N :=
  if (cp <? 128)%N
  then [if ((97 <=? cp) && (cp <=? 122))%N then (cp - 32)%N else cp]
  else uppercaseMapping rt cp.

(** [s.toUpperCase()]: code point by code point. *)
Definition toUpperCase (rt : runtime) (s : jsstring) : jsstring :=
  Utf16.of_points (List.flat_map (upperPoint rt) (Utf16.code_points s)).

Definition echoData (rt : runtime) (input : jsstring) : value :=
  VObj {[ "normal" := VStr input;
          "shouty" := VStr (toUpperCase rt input);
          "characterCount" := VNum (Num.of_Z (Z.of_nat (length input)));
          "backwards" := VStr (Utf16.join (rev (Utf16.split_chars input))) ]}.

Definition statusOnly (status : string) : value :=
  VObj {[ "status" := VStr status ]}.

(** The callback given to [http.createServer], with the array of the
    product store passed in and out. *)
Definition handler (rt : runtime) (req : request) (st : Product.store)
  : result (response * Product.store) :=
  let pathname := pathname req in
  let GET := String.eqb (method req) "GET" in
  if GET && (String.eqb pathname "/" || String.eqb pathname "/home") then
    Ok (htmlResponse 200 homePageHtml, st)
  else if GET && String.eqb pathname "/plain-text" then
    Ok (textResponse 200 "This is a plain text response.", st)
  else if GET && String.eqb pathname "/json" then
    Ok (jsonResponse 200 (VObj {[ "greetings" := VStr "Hello Node.js HTTP Server!" ]}), st)
  else if GET && String.eqb pathname "/echo" then
    match inputOrHello (query_input req) with
    | QString input => Ok (jsonResponse 200 (echoData rt input), st)
    | _ => Throw TypeError
    end
  else if GET && Str.startsWith pathname "/static/" then
    let filePath :=
      Path.join [dirname rt; "public"; Str.replace "/static/" "" pathname] in
    Ok (staticFileResponse rt filePath, st)
  else
    let reqUrlParts := Str.split "/" pathname in
    let resource := reqUrlParts !! 1%nat in
    let resourceId := ToNumber.Number (reqUrlParts !! 2%nat) in
    if GET && (length reqUrlParts =? 2)%nat && is_string resource "products" then
      Ok (jsonResponse 200
            (VObj {[ "status" := VStr "OK";
                     "products" := VArr (VObj <$> Product.all st) ]}), st)
    else if String.eqb (method req) "POST" && (length reqUrlParts =? 2)%nat
            && is_string resource "products" then
      match json_body req with
      | None => Throw SyntaxError
      | Some productData =>
          let st' := Product.add st productData in
          Ok (jsonResponse 201
                (VObj {[ "status" := VStr "Created";
                         "message" := VStr "Product created successfully" ]}), st')
      end
    else if GET && (length reqUrlParts =? 3)%nat && is_string resource "products"
            && Num.isInteger resourceId then
      match Product.getById st (VNum resourceId) with
      | None => Ok (jsonResponse 404 (statusOnly "Not Found"), st)
      | Some product =>
          Ok (jsonResponse 200
                (VObj {[ "status" := VStr "OK"; "product" := VObj product ]}), st)
      end
    else if String.eqb (method req) "PATCH" && (length reqUrlParts =? 3)%nat
            && is_string resource "products" && Num.isInteger resourceId then
      match json_body req with
      | None => Throw SyntaxError
      | Some productData =>
          let '(isUpdated, st') := Product.update st (VNum resourceId) productData in
          if negb isUpdated
          then Ok (jsonResponse 404 (statusOnly "Not Found"), st')
          else Ok (jsonResponse 200 (statusOnly "OK"), st')
      end
    else if String.eqb (method req) "DELETE" && (length reqUrlParts =? 3)%nat
            && is_string resource "products" && Num.isInteger resourceId then
      let '(removed, st') := Product.remove st (VNum resourceId) in
      if negb removed
      then Ok (jsonResponse 404 (statusOnly "Not Found"), st')
      else Ok (jsonResponse 200 (statusOnly "OK"), st')
    else
      Ok (notFoundResponse, st).

End Server.

(* ===================================================================== *)
(** ** Vocabulary of the statements *)
(* ===================================================================== *)

#[local] Open Scope list_scope.

(** [target] is the first record of [st] whose id is [id]: [before] are the
    records in front of it, none of them with that id, and [after] the
    records behind it. *)
Definition first_match (id : value) (st before : Product.store)
  (target : object) (after : Product.store) : Prop :=
  st = before ++ target :: after /\
  Forall (fun r => Product.has_id id r = false) before /\
  Product.has_id id target = true.

(** No record of [st] has the id [id]. *)
Definition no_match (id : value) (st : Product.store) : Prop :=
  Forall (fun r => Product.has_id id r = false) st.

(** Some record of [st] has the id [id]. *)
Definition present (id : value) (st : Product.store) : Prop :=
  exists r, r ∈ st /\ Product.has_id id r = true.

(** How many records of [st] have the id [id]. *)
Definition occurrences (id : value) (st : Product.store) : nat :=
  length (List.filter (Product.has_id id) st).

(** The three properties an update can write. *)
Definition updatable : list string := ["title"; "sku"; "price"].

(** The record after the three assignments of [update]. *)
Definition updated (data target : object) : object :=
  let p1 := set_prop target "title"
            (coalesce (get_prop data "title") (get_prop target "title")) in
  let p2 := set_prop p1 "sku"
            (coalesce (get_prop data "sku") (get_prop p1 "sku")) in
  set_prop p2 "price" (coalesce (get_prop data "price") (get_prop p2 "price")).

(** A syntactically valid integer: an optional sign, then one or more
    decimal digits and nothing else. *)
Definition integer_syntax (s : string) : bool :=
  let '(_, ds) := ToNumber.sign s in
  negb (String.eqb ds "") && forallb Str.is_digit (list_ascii_of_string ds).

(** The number of characters of a string: of its code points, a surrogate
    pair being one character. *)
Definition char_count (s : jsstring) : nat :=
  length (Utf16.code_points s).

(** The characters of a string in reverse order. *)
Definition char_reversed (s : jsstring) : jsstring :=
  Utf16.of_points (rev (Utf16.code_points s)).

(** ASCII text: every code unit is below 128. *)
Definition ascii_text (s : jsstring) : bool :=
  forallb (fun u => u <? 128)%N s.

(** The upper case of an ASCII character. *)
Definition ascii_upper (u : N) : N :=
  if ((97 <=? u) && (u <=? 122))%N then (u - 32)%N else u.

(** Every code unit of the string is a character of the Basic Multilingual
    Plane: none is a surrogate. *)
Definition bmp (s : jsstring) : bool :=
  forallb (fun u => (u <? 55296) || ((57343 <? u) && (u <? 65536)))%N s.

(** The content-type table of the specification. *)
Definition mimeTable : list (string * string) :=
  [ (".html", "text/html");
    (".jpg", "image/jpeg");
    (".jpeg", "image/jpeg");
    (".png", "image/png");
    (".css", "text/css");
    (".js", "application/javascript");
    (".pdf", "application/pdf");
    (".csv", "text/csv");
    (".txt", "text/plain") ].

(** The type the table gives to an extension; [application/octet-stream]
    for an extension that is not in it. *)
Definition mimeOf (ext : string) : string :=
  match List.find (fun row => String.eqb ext (fst row)) mimeTable with
  | Some row => snd row
  | None => "application/octet-stream"
  end.

(** A runtime for the examples: [server.js] lives in [/app], the public
    directory holds [style.css] only, and of the uppercase mapping there
    are the two entries the examples could meet, [e] with acute accent and
    sharp [s]. *)
Definition example_runtime : Server.runtime :=
  Server.Runtime "/app" (fun p => String.eqb p "/app/public/style.css")
    (fun cp => if (cp =? 233)%N then [201%N]
               else if (cp =? 223)%N then [83%N; 83%N]
               else [cp]).

(* ===================================================================== *)
(** ** Searching an array *)
(* ===================================================================== *)

Section Search.

Context {A : Type} (p : A -> bool).

Lemma findIndex_None (l : list A) :
  findIndex p l = None <-> Forall (fun x => p x = false) l.
Proof.
  induction l as [|x l IH]; simpl.
  - split; [constructor | reflexivity].
  - destruct (p x) eqn:Hx.
    + split; [discriminate |].
      intros H. inversion H; subst. congruence.
    + destruct (findIndex p l) as [i|]; simpl.
      * split; [discriminate |].
        intros H. inversion H; subst.
        assert (@None nat = None) as Hn by reflexivity.
        apply IH in H3. discriminate.
      * split; [| reflexivity].
        intros _. constructor; [assumption | apply IH; reflexivity].
Qed.

Lemma findIndex_first (before : list A) (x : A) (after : list A) :
  Forall (fun y => p y = false) before ->
  p x = true ->
  findIndex p (before ++ x :: after) = Some (length before).
Proof.
  intros Hb Hx. induction Hb as [|y before Hy _ IH]; simpl.
  - rewrite Hx. reflexivity.
  - rewrite Hy, IH. reflexivity.
Qed.

Lemma findIndex_split (l : list A) (i : nat) :
  findIndex p l = Some i ->
  exists before x after,
    l = before ++ x :: after /\ length before = i /\
    Forall (fun y => p y = false) before /\ p x = true.
Proof.
  revert i. induction l as [|y l IH]; simpl; intros i H; [discriminate |].
  destruct (p y) eqn:Hy.
  - injection H as <-. exists [], y, l. repeat split; auto.
  - destruct (findIndex p l) as [j|]; [| discriminate].
    injection H as <-.
    destruct (IH j eq_refl) as (before & x & after & -> & <- & Hb & Hx).
    exists (y :: before), x, after. repeat split; auto.
Qed.

Lemma findIndex_elem (l : list A) (x : A) :
  x ∈ l -> p x = true -> exists i, findIndex p l = Some i.
Proof.
  intros Hin Hx. destruct (findIndex p l) as [i|] eqn:E; [eauto |].
  apply findIndex_None in E. rewrite Forall_forall in E.
  apply E in Hin. congruence.
Qed.

Lemma find_first (before : list A) (x : A) (after : list A) :
  Forall (fun y => p y = false) before ->
  p x = true ->
  find p (before ++ x :: after) = Some x.
Proof.
  intros Hb Hx. induction Hb as [|y before Hy _ IH]; simpl.
  - rewrite Hx. reflexivity.
  - rewrite Hy. exact IH.
Qed.

Lemma find_None (l : list A) :
  Forall (fun x => p x = false) l -> find p l = None.
Proof.
  induction 1 as [|x l Hx _ IH]; simpl; [reflexivity |].
  rewrite Hx. exact IH.
Qed.

End Search.

(* ===================================================================== *)
(** ** The store operations *)
(* ===================================================================== *)

Lemma first_match_exists (id : value) (st : Product.store) (r : object) :
  r ∈ st -> Product.has_id id r = true ->
  exists before target after, first_match id st before target after.
Proof.
  intros Hin Hr.
  destruct (findIndex_elem _ _ _ Hin Hr) as [i Hi].
  destruct (findIndex_split _ _ _ Hi) as (before & x & after & ? & _ & ? & ?).
  exists before, x, after. repeat split; assumption.
Qed.

Lemma first_match_or_none (id : value) (st : Product.store) :
  no_match id st \/ exists before target after, first_match id st before target after.
Proof.
  destruct (findIndex (Product.has_id id) st) as [i|] eqn:E.
  - right. destruct (findIndex_split _ _ _ E) as (before & x & after & ? & _ & ? & ?).
  exists before, x, after. repeat split; assumption.
  - left. apply findIndex_None. exact E.
Qed.

Lemma get_set_prop_eq (o : object) (k : string) (v : value) :
  get_prop (set_prop o k v) k = v.
Proof. unfold get_prop, set_prop. rewrite lookup_insert_eq. reflexivity. Qed.

Lemma get_set_prop_ne (o : object) (k k' : string) (v : value) :
  k <> k' -> get_prop (set_prop o k v) k' = get_prop o k'.
Proof.
  intros Hne. unfold get_prop, set_prop.
  rewrite lookup_insert_ne by exact Hne. reflexivity.
Qed.

Lemma assign_at_target (data : object) (k : string)
  (before : Product.store) (target : object) (after : Product.store) :
  Product.assign data k (length before) (before ++ target :: after) =
  before ++ set_prop target k (coalesce (get_prop data k) (get_prop target k)) :: after.
Proof.
  unfold Product.assign.
  replace (length before) with (length before + 0) by lia.
  rewrite alter_app_r. reflexivity.
Qed.

Lemma remove_no_match (id : value) (st : Product.store) :
  no_match id st -> Product.remove st id = (false, st).
Proof.
  intros H. unfold Product.remove.
  apply findIndex_None in H. rewrite H. reflexivity.
Qed.

Lemma remove_first_match (id : value) (st before : Product.store)
  (target : object) (after : Product.store) :
  first_match id st before target after ->
  Product.remove st id = (true, before ++ after).
Proof.
  intros (-> & Hb & Ht). unfold Product.remove.
  rewrite (findIndex_first _ _ _ _ Hb Ht), delete_middle. reflexivity.
Qed.

Lemma update_no_match (id : value) (st : Product.store) (data : object) :
  no_match id st -> Product.update st id data = (false, st).
Proof.
  intros H. unfold Product.update.
  apply findIndex_None in H. rewrite H. reflexivity.
Qed.

Lemma update_first_match (id : value) (st before : Product.store)
  (target : object) (after : Product.store) (data : object) :
  first_match id st before target after ->
  Product.update st id data = (true, before ++ updated data target :: after).
Proof.
  intros (-> & Hb & Ht). unfold Product.update.
  rewrite (findIndex_first _ _ _ _ Hb Ht). cbv zeta.
  rewrite !assign_at_target. reflexivity.
Qed.

(** What [update] leaves in each property of the record it changes. *)
Lemma updated_get (data target : object) (k : string) :
  get_prop (updated data target) k =
  if bool_decide (k ∈ updatable)
  then coalesce (get_prop data k) (get_prop target k)
  else get_prop target k.
Proof.
  unfold updated, updatable.
  destruct (decide (k = "price")) as [->|Hp].
  { rewrite get_set_prop_eq, !get_set_prop_ne by discriminate. reflexivity. }
  rewrite get_set_prop_ne by congruence.
  destruct (decide (k = "sku")) as [->|Hs].
  { rewrite get_set_prop_eq, !get_set_prop_ne by discriminate. reflexivity. }
  rewrite get_set_prop_ne by congruence.
  destruct (decide (k = "title")) as [->|Ht].
  { rewrite get_set_prop_eq. reflexivity. }
  rewrite get_set_prop_ne by congruence.
  rewrite bool_decide_eq_false_2; [reflexivity |].
  rewrite !elem_of_cons, elem_of_nil. intuition congruence.
Qed.

Lemma updated_empty (target : object) (k : string) :
  get_prop (updated ∅ target) k = get_prop target k.
Proof.
  rewrite updated_get. unfold get_prop at 1. rewrite lookup_empty. simpl.
  destruct (bool_decide (k ∈ updatable)); reflexivity.
Qed.

Lemma updated_id (data target : object) :
  get_prop (updated data target) "id" = get_prop target "id".
Proof. rewrite updated_get. reflexivity. Qed.

Lemma first_match_not_before (id : value) (st before : Product.store)
  (target : object) (after : Product.store) :
  first_match id st before target after -> target ∉ before.
Proof.
  intros (_ & Hb & Ht) Hin. rewrite Forall_forall in Hb.
  apply Hb in Hin. congruence.
Qed.

Lemma present_first_match (id : value) (st : Product.store) :
  present id st ->
  exists before target after, first_match id st before target after.
Proof. intros (r & Hin & Hr). exact (first_match_exists id st r Hin Hr). Qed.

(** The first record with a given id is determined by the array. *)
Lemma first_match_unique (id : value) (st : Product.store)
  (b1 : Product.store) (t1 : object) (a1 : Product.store)
  (b2 : Product.store) (t2 : object) (a2 : Product.store) :
  first_match id st b1 t1 a1 ->
  first_match id st b2 t2 a2 ->
  b1 = b2 /\ t1 = t2 /\ a1 = a2.
Proof.
  intros (-> & Hb1 & Ht1) (E & Hb2 & Ht2).
  revert b2 E Hb2. induction Hb1 as [|x b1 Hx _ IH]; intros b2 E Hb2.
  - destruct Hb2 as [|y b2 Hy _]; simpl in E.
    + injection E as -> ->. auto.
    + injection E as -> _. congruence.
  - destruct Hb2 as [|y b2 Hy Hb2]; simpl in E.
    + injection E as <- _. congruence.
    + injection E as <- E. destruct (IH b2 E Hb2) as (-> & -> & ->). auto.
Qed.

(** When exactly one record has the id, none stands behind the first. *)
Lemma single_occurrence (id : value) (st : Product.store) :
  occurrences id st = 1 ->
  exists before target after,
    first_match id st before target after /\ no_match id after.
Proof.
  unfold occurrences. induction st as [|r st IH]; simpl; [discriminate |].
  destruct (Product.has_id id r) eqn:Hr; simpl; intros H.
  - exists [], r, st. repeat split; auto.
    unfold no_match. apply Forall_forall. intros x Hx.
    destruct (Product.has_id id x) eqn:E; [| reflexivity].
    assert (In x (List.filter (Product.has_id id) st)) as Hin.
    { apply filter_In. split; [apply list_elem_of_In; exact Hx | exact E]. }
    destruct (List.filter (Product.has_id id) st); [destruct Hin | discriminate].
  - destruct (IH H) as (before & target & after & (-> & Hb & Ht) & Ha).
    exists (r :: before), target, after. repeat split; auto.
Qed.

(** A property that is [null] in the partial object counts as one that is
    not there. *)
Lemma updated_delete_null (data target : object) (k : string) :
  data !! k = Some VNull ->
  updated (delete k data) target = updated data target.
Proof.
  intros Hk.
  assert (Hc : forall k' v,
             coalesce (get_prop (delete k data) k') v
             = coalesce (get_prop data k') v).
  { intros k' v. unfold get_prop. destruct (decide (k = k')) as [<- | Hne].
    - rewrite lookup_delete_eq, Hk. reflexivity.
    - rewrite lookup_delete_ne by exact Hne. reflexivity. }
  unfold updated. rewrite !Hc. reflexivity.
Qed.

(** The initial array, for the examples. *)
Lemma products_has_1002 : present (VNum (Num.of_Z 1002)) Product.products.
Proof.
  exists (Product.record 1002 "Cap" "ABC-1002" 19900).
  split; [| vm_compute; reflexivity].
  apply list_elem_of_In. right. left. reflexivity.
Defined.

Lemma products_no_9999 : no_match (VNum (Num.of_Z 9999)) Product.products.
Proof. repeat (constructor; [vm_compute; reflexivity |]). constructor. Defined.

(* --------------------------------------------------------------------- *)
(** *** update *)
(* --------------------------------------------------------------------- *)

(** C1, as it is worded, fails: a property that is present in the partial
    object with the value [null] is not written. Here the partial object
    has [price: null]; the update finds record 1001 and leaves its price,
    49900, in place. *)
Lemma update_present_null_not_written :
  let data : object := {[ "price" := VNull ]} in
  let id := VNum (Num.of_Z 1001) in
  data !! "price" = Some VNull /\
  Product.update Product.products id data = (true, Product.products) /\
  (fun r => get_prop r "price") <$> Product.getById Product.products id
    = Some (VNum (Num.of_Z 49900)) /\
  VNum (Num.of_Z 49900) <> VNull.
Proof.
  cbv zeta. split; [reflexivity |]. split; [vm_compute; reflexivity |].
  split; [vm_compute; reflexivity | discriminate].
Qed.

(** C1 (amended). When some record has the id, [update] returns [true] and
    changes the first such record only: each of [title], [sku], [price]
    whose value in the partial object is neither absent ([undefined]) nor
    [null] is overwritten with that value, every other property of the
    record keeps its value; in particular a partial object with [price: 0]
    sets the price to 0. When no record has the id, [update] returns
    [false] and the array is as before. *)
Theorem update_overwrites_non_nullish
  (st : Product.store) (id : value) (data : object) :
  (no_match id st -> Product.update st id data = (false, st)) /\
  (present id st ->
   exists before target after target',
     first_match id st before target after /\
     Product.update st id data = (true, before ++ target' :: after) /\
     (forall k, k ∈ updatable ->
        get_prop target' k =
        if nullish (get_prop data k) then get_prop target k
        else get_prop data k) /\
     (forall k, k ∉ updatable -> get_prop target' k = get_prop target k) /\
     (data !! "price" = Some (VNum (Num.of_Z 0)) ->
        get_prop target' "price" = VNum (Num.of_Z 0))).
Proof.
  split; [apply update_no_match |].
  intros (before & target & after & Hfm)%present_first_match.
  exists before, target, after, (updated data target).
  split; [exact Hfm |].
  split; [apply update_first_match; exact Hfm |].
  split; [| split].
  - intros k Hk. rewrite updated_get, bool_decide_eq_true_2 by exact Hk.
    reflexivity.
  - intros k Hk. rewrite updated_get, bool_decide_eq_false_2 by exact Hk.
    reflexivity.
  - intros Hp. rewrite updated_get. unfold get_prop at 1. rewrite Hp.
    reflexivity.
Qed.

Lemma update_overwrites_non_nullish_witness :
  let data : object := {[ "price" := VNum (Num.of_Z 0) ]} in
  Product.update Product.products (VNum (Num.of_Z 9999)) data
    = (false, Product.products) /\
  exists before target after target',
    first_match (VNum (Num.of_Z 1002)) Product.products before target after /\
    Product.update Product.products (VNum (Num.of_Z 1002)) data
      = (true, before ++ target' :: after) /\
    get_prop target' "price" = VNum (Num.of_Z 0) /\
    get_prop target' "title" = get_prop target "title".
Proof.
  cbv zeta. split.
  - exact (proj1 (update_overwrites_non_nullish Product.products
                    (VNum (Num.of_Z 9999)) {[ "price" := VNum (Num.of_Z 0) ]})
                 products_no_9999).
  - destruct (proj2 (update_overwrites_non_nullish Product.products
                       (VNum (Num.of_Z 1002)) {[ "price" := VNum (Num.of_Z 0) ]})
                    products_has_1002)
      as (before & target & after & target' & Hfm & Hu & Hk & _ & Hp).
    exists before, target, after, target'.
    split; [exact Hfm |]. split; [exact Hu |]. split.
    + apply Hp. reflexivity.
    + rewrite (Hk "title") by (unfold updatable; set_solver).
      reflexivity.
Defined.

(** C7. When some record has the id, [update] with the empty partial object
    returns [true], and every property of every record of the array reads
    as before. *)
Theorem update_empty_partial (st : Product.store) (id : value) :
  present id st ->
  exists st',
    Product.update st id ∅ = (true, st') /\
    Forall2 (fun r r' => forall k, get_prop r' k = get_prop r k) st st'.
Proof.
  intros (before & target & after & Hfm)%present_first_match.
  exists (before ++ updated ∅ target :: after).
  split; [apply update_first_match; exact Hfm |].
  destruct Hfm as (-> & _ & _).
  apply Forall2_app; [apply Forall2_same_length_lookup_2; [reflexivity |] |].
  - intros i r r' H1 H2. rewrite H1 in H2. injection H2 as <-. reflexivity.
  - constructor; [apply updated_empty |].
    apply Forall2_same_length_lookup_2; [reflexivity |].
    intros i r r' H1 H2. rewrite H1 in H2. injection H2 as <-. reflexivity.
Qed.

Lemma update_empty_partial_witness :
  exists st',
    Product.update Product.products (VNum (Num.of_Z 1002)) ∅ = (true, st') /\
    Forall2 (fun r r' => forall k, get_prop r' k = get_prop r k)
      Product.products st'.
Proof. exact (update_empty_partial _ _ products_has_1002). Defined.

(** C9. When some record has the id and one of [title], [sku], [price] is
    present in the partial object with the value [null], [update] returns
    [true] and leaves that property of the record as it was; the call does
    what it does when the property is taken out of the partial object. *)
Theorem update_null_like_absent
  (st : Product.store) (id : value) (data : object) (k : string) :
  present id st ->
  k ∈ updatable ->
  data !! k = Some VNull ->
  (exists before target after target',
     first_match id st before target after /\
     Product.update st id data = (true, before ++ target' :: after) /\
     get_prop target' k = get_prop target k) /\
  Product.update st id data = Product.update st id (delete k data).
Proof.
  intros (before & target & after & Hfm)%present_first_match Hk Hd. split.
  - exists before, target, after, (updated data target).
    split; [exact Hfm |].
    split; [apply update_first_match; exact Hfm |].
    rewrite updated_get, bool_decide_eq_true_2 by exact Hk.
    unfold get_prop at 1. rewrite Hd. reflexivity.
  - rewrite !(update_first_match _ _ _ _ _ _ Hfm).
    rewrite updated_delete_null by exact Hd. reflexivity.
Qed.

Lemma update_null_like_absent_witness :
  let data : object := {[ "title" := VNull; "price" := VNum (Num.of_Z 5) ]} in
  (exists before target after target',
     first_match (VNum (Num.of_Z 1002)) Product.products before target after /\
     Product.update Product.products (VNum (Num.of_Z 1002)) data
       = (true, before ++ target' :: after) /\
     get_prop target' "title" = get_prop target "title") /\
  Product.update Product.products (VNum (Num.of_Z 1002)) data
    = Product.update Product.products (VNum (Num.of_Z 1002))
        (delete "title" data).
Proof.
  cbv zeta.
  apply (update_null_like_absent _ _ _ "title" products_has_1002).
  - unfold updatable. set_solver.
  - reflexivity.
Defined.

(** C10. [update] never changes the [id] of a record, whatever the partial
    object holds, an [id] of its own included: record by record the ids
    after the call are the ids before it, so the list of ids of the array,
    and with it their multiset, is the same. *)
Theorem update_preserves_ids
  (st : Product.store) (id : value) (data : object) :
  Forall2 (fun r r' => get_prop r' "id" = get_prop r "id")
    st (snd (Product.update st id data)) /\
  (fun r => get_prop r "id") <$> snd (Product.update st id data)
    = (fun r => get_prop r "id") <$> st.
Proof.
  assert (Hrefl : forall l : Product.store,
             Forall2 (fun r r' => get_prop r' "id" = get_prop r "id") l l).
  { intros l. apply Forall2_same_length_lookup_2; [reflexivity |].
    intros i r r' H1 H2. rewrite H1 in H2. injection H2 as <-. reflexivity. }
  destruct (first_match_or_none id st) as [Hn | (before & target & after & Hfm)].
  - rewrite (update_no_match _ _ data Hn). simpl. split; [apply Hrefl | reflexivity].
  - rewrite (update_first_match _ _ _ _ _ data Hfm). simpl.
    destruct Hfm as (-> & _ & _). split.
    + apply Forall2_app; [apply Hrefl |].
      constructor; [apply updated_id | apply Hrefl].
    + rewrite !fmap_app, !fmap_cons, updated_id. reflexivity.
Qed.

(* --------------------------------------------------------------------- *)
(** *** remove, add, getById *)
(* --------------------------------------------------------------------- *)

(** C3. When no record has the id, [remove] returns [false] and the array
    is the one it was. When some record has it, [remove] returns [true]
    and the first such record is taken out: the array holds the records
    that were in front of it and those that were behind it, in their
    order, and the record itself is not among them unless a record equal
    to it stood behind it. *)
Theorem remove_first_or_nothing (st : Product.store) (id : value) :
  (no_match id st -> Product.remove st id = (false, st)) /\
  (present id st ->
   exists before target after,
     first_match id st before target after /\
     Product.remove st id = (true, before ++ after) /\
     (target ∉ after -> target ∉ before ++ after)).
Proof.
  split; [apply remove_no_match |].
  intros (before & target & after & Hfm)%present_first_match.
  exists before, target, after. split; [exact Hfm |].
  split; [apply (remove_first_match _ _ _ target); exact Hfm |].
  intros Ha [Hin | Hin]%elem_of_app; [| exact (Ha Hin)].
  exact (first_match_not_before _ _ _ _ _ Hfm Hin).
Qed.

Lemma remove_first_or_nothing_witness :
  Product.remove Product.products (VNum (Num.of_Z 9999))
    = (false, Product.products) /\
  exists before target after,
    first_match (VNum (Num.of_Z 1002)) Product.products before target after /\
    Product.remove Product.products (VNum (Num.of_Z 1002))
      = (true, before ++ after) /\
    (target ∉ after -> target ∉ before ++ after).
Proof.
  split.
  - exact (proj1 (remove_first_or_nothing Product.products (VNum (Num.of_Z 9999)))
                 products_no_9999).
  - exact (proj2 (remove_first_or_nothing Product.products
                    (VNum (Num.of_Z 1002))) products_has_1002).
Defined.

Lemma getById_add (st : Product.store) (r : object) (X : value) :
  Product.has_id X r = true ->
  no_match X st ->
  Product.getById (Product.add st r) X = Some r.
Proof.
  intros Hr Hst. unfold Product.getById, Product.add.
  apply find_first; assumption.
Qed.

Lemma getById_remove (st : Product.store) (id : value)
  (before : Product.store) (target : object) (after : Product.store) :
  first_match id st before target after ->
  no_match id after ->
  Product.getById (before ++ after) id = None.
Proof.
  intros (_ & Hb & _) Ha. unfold Product.getById.
  apply find_None, Forall_app. split; assumption.
Qed.

(* ===================================================================== *)
(** ** The request handler *)
(* ===================================================================== *)

Import Server.

Lemma prefix_app (a s : string) :
  String.prefix a s = true -> exists r, s = (a ++ r)%string.
Proof.
  revert s. induction a as [|c a IH]; intros s H.
  - exists s. reflexivity.
  - destruct s as [|d s]; simpl in H; [discriminate |].
    destruct (ascii_dec c d) as [<- | Hne]; [| discriminate].
    destruct (IH s H) as [r ->]. exists r. reflexivity.
Qed.

Lemma prefix_empty (s : string) : String.prefix "" s = true.
Proof. destruct s; reflexivity. Qed.

Lemma split_products (seg : string) :
  Str.split "/" ("/products/" ++ seg)%string
  = "" :: "products" :: Str.split "/" seg.
Proof. reflexivity. Qed.

(** A path of three segments with [products] in the middle is none of the
    paths of the routes in front of the product routes. *)
Lemma item_path_facts (p : string) :
  length (Str.split "/" p) = 3 ->
  Str.split "/" p !! 1 = Some "products" ->
  String.eqb p "/" = false /\ String.eqb p "/home" = false /\
  String.eqb p "/plain-text" = false /\ String.eqb p "/json" = false /\
  String.eqb p "/echo" = false /\ Str.startsWith p "/static/" = false.
Proof.
  intros Hlen Hres.
  repeat split;
    try (apply String.eqb_neq; intros ->; vm_compute in Hlen; discriminate).
  unfold Str.startsWith.
  destruct (String.prefix "/static/" p) eqn:E; [| reflexivity].
  apply prefix_app in E as [r ->].
  change (Str.split "/" ("/static/" ++ r)%string)
    with ("" :: "static" :: Str.split "/" r) in Hres.
  discriminate.
Qed.

Ltac item_route Hlen Hres :=
  let F := fresh "F" in
  pose proof (item_path_facts _ Hlen Hres) as F;
  destruct F as (F1 & F2 & F3 & F4 & F5 & F6);
  unfold handler; cbv zeta;
  rewrite F1, F2, F3, F4, F5, F6, Hlen, Hres;
  clear F1 F2 F3 F4 F5 F6.

Lemma handler_item_reject (rt : runtime) (req : request) (st : Product.store) :
  length (Str.split "/" (pathname req)) = 3 ->
  Str.split "/" (pathname req) !! 1 = Some "products" ->
  Num.isInteger (ToNumber.Number (Str.split "/" (pathname req) !! 2)) = false ->
  handler rt req st = Ok (notFoundResponse, st).
Proof.
  intros Hlen Hres Hint. item_route Hlen Hres. rewrite Hint.
  rewrite !andb_false_r.
  cbn [andb orb negb Nat.eqb is_string].
  rewrite ?andb_false_r. reflexivity.
Qed.

Lemma handler_item_get (rt : runtime) (req : request) (st : Product.store) :
  length (Str.split "/" (pathname req)) = 3 ->
  Str.split "/" (pathname req) !! 1 = Some "products" ->
  Num.isInteger (ToNumber.Number (Str.split "/" (pathname req) !! 2)) = true ->
  method req = "GET" ->
  handler rt req st =
  match Product.getById st
          (VNum (ToNumber.Number (Str.split "/" (pathname req) !! 2))) with
  | None => Ok (jsonResponse 404 (statusOnly "Not Found"), st)
  | Some product =>
      Ok (jsonResponse 200
            (VObj {[ "status" := VStr "OK"; "product" := VObj product ]}), st)
  end.
Proof.
  intros Hlen Hres Hint Hm. item_route Hlen Hres. rewrite Hint, Hm.
  reflexivity.
Qed.

Lemma handler_item_patch (rt : runtime) (req : request) (st : Product.store) :
  length (Str.split "/" (pathname req)) = 3 ->
  Str.split "/" (pathname req) !! 1 = Some "products" ->
  Num.isInteger (ToNumber.Number (Str.split "/" (pathname req) !! 2)) = true ->
  method req = "PATCH" ->
  handler rt req st =
  match json_body req with
  | None => Throw SyntaxError
  | Some productData =>
      let '(isUpdated, st') :=
        Product.update st
          (VNum (ToNumber.Number (Str.split "/" (pathname req) !! 2)))
          productData in
      if isUpdated
      then Ok (jsonResponse 200 (statusOnly "OK"), st')
      else Ok (jsonResponse 404 (statusOnly "Not Found"), st')
  end.
Proof.
  intros Hlen Hres Hint Hm. item_route Hlen Hres. rewrite Hint, Hm.
  cbn [andb orb negb Nat.eqb is_string String.eqb Ascii.eqb Bool.eqb].
  destruct (json_body req) as [data|]; [| reflexivity].
  destruct (Product.update _ _ _) as [[] st']; reflexivity.
Qed.

Lemma handler_item_delete (rt : runtime) (req : request) (st : Product.store) :
  length (Str.split "/" (pathname req)) = 3 ->
  Str.split "/" (pathname req) !! 1 = Some "products" ->
  Num.isInteger (ToNumber.Number (Str.split "/" (pathname req) !! 2)) = true ->
  method req = "DELETE" ->
  handler rt req st =
  let '(removed, st') :=
    Product.remove st
      (VNum (ToNumber.Number (Str.split "/" (pathname req) !! 2))) in
  if removed
  then Ok (jsonResponse 200 (statusOnly "OK"), st')
  else Ok (jsonResponse 404 (statusOnly "Not Found"), st').
Proof.
  intros Hlen Hres Hint Hm. item_route Hlen Hres. rewrite Hint, Hm.
  cbn [andb orb negb Nat.eqb is_string String.eqb Ascii.eqb Bool.eqb].
  destruct (Product.remove _ _) as [[] st']; reflexivity.
Qed.

Lemma handler_post (rt : runtime) (q : query_value) (r : object)
  (st : Product.store) :
  handler rt (Request "POST" "/products" q (Some r)) st =
  Ok (jsonResponse 201
        (VObj {[ "status" := VStr "Created";
                 "message" := VStr "Product created successfully" ]}),
      Product.add st r).
Proof. reflexivity. Qed.

(* --------------------------------------------------------------------- *)
(** *** The item-level routes *)
(* --------------------------------------------------------------------- *)

(** C2, as it is worded, fails: the id segment [1001.0] is not a
    syntactically valid integer, yet [GET /products/1001.0] is answered by
    the item-level route, with record 1001; and the empty id segment of
    [GET /products/] is taken for the id 0 and answered by the item-level
    route with its JSON 404, not by the HTML fallback. *)
Lemma item_route_on_non_integer_segment :
  let decimal := Request "GET" "/products/1001.0" QAbsent None in
  let empty := Request "GET" "/products/" QAbsent None in
  Str.split "/" (pathname decimal) = [""; "products"; "1001.0"] /\
  integer_syntax "1001.0" = false /\
  handler example_runtime decimal Product.products =
    Ok (jsonResponse 200
          (VObj {[ "status" := VStr "OK";
                   "product" :=
                     VObj (Product.record 1001 "T-Shirt" "ABC-1001" 49900) ]}),
        Product.products) /\
  Str.split "/" (pathname empty) = [""; "products"; ""] /\
  integer_syntax "" = false /\
  handler example_runtime empty Product.products =
    Ok (jsonResponse 404 (statusOnly "Not Found"), Product.products) /\
  jsonResponse 404 (statusOnly "Not Found") <> notFoundResponse.
Proof.
  cbv zeta. repeat split; try (vm_compute; reflexivity).
  discriminate.
Qed.

(** C2 (amended). On a path of exactly three segments with [products] as
    its resource, the item-level routes match only when the numeric
    conversion of the id segment, [Number(segment)], is an integer: for
    every id segment whose conversion is not an integer the request gets
    the 404 HTML fallback, whatever its method; when the conversion is an
    integer, GET, PATCH and DELETE are answered by their item-level
    routes. *)
Theorem item_routes_gate (rt : runtime) (req : request) (st : Product.store) :
  length (Str.split "/" (pathname req)) = 3 ->
  Str.split "/" (pathname req) !! 1 = Some "products" ->
  let resourceId := ToNumber.Number (Str.split "/" (pathname req) !! 2) in
  (Num.isInteger resourceId = false ->
   handler rt req st = Ok (notFoundResponse, st)) /\
  (Num.isInteger resourceId = true ->
   (method req = "GET" ->
    handler rt req st =
    match Product.getById st (VNum resourceId) with
    | None => Ok (jsonResponse 404 (statusOnly "Not Found"), st)
    | Some product =>
        Ok (jsonResponse 200
              (VObj {[ "status" := VStr "OK"; "product" := VObj product ]}), st)
    end) /\
   (method req = "PATCH" ->
    handler rt req st =
    match json_body req with
    | None => Throw SyntaxError
    | Some productData =>
        let '(isUpdated, st') := Product.update st (VNum resourceId) productData in
        if isUpdated
        then Ok (jsonResponse 200 (statusOnly "OK"), st')
        else Ok (jsonResponse 404 (statusOnly "Not Found"), st')
    end) /\
   (method req = "DELETE" ->
    handler rt req st =
    let '(removed, st') := Product.remove st (VNum resourceId) in
    if removed
    then Ok (jsonResponse 200 (statusOnly "OK"), st')
    else Ok (jsonResponse 404 (statusOnly "Not Found"), st'))).
Proof.
  intros Hlen Hres resourceId. split.
  - apply handler_item_reject; assumption.
  - intros Hint. repeat split; intros Hm.
    + apply handler_item_get; assumption.
    + apply handler_item_patch; assumption.
    + apply handler_item_delete; assumption.
Qed.

Lemma item_routes_gate_witness :
  handler example_runtime (Request "GET" "/products/abc" QAbsent None)
    Product.products = Ok (notFoundResponse, Product.products) /\
  handler example_runtime (Request "DELETE" "/products/1.5" QAbsent None)
    Product.products = Ok (notFoundResponse, Product.products) /\
  handler example_runtime (Request "GET" "/products/1002" QAbsent None)
    Product.products =
    Ok (jsonResponse 200
          (VObj {[ "status" := VStr "OK";
                   "product" :=
                     VObj (Product.record 1002 "Cap" "ABC-1002" 19900) ]}),
        Product.products).
Proof.
  split; [| split].
  - apply (proj1 (item_routes_gate example_runtime
                    (Request "GET" "/products/abc" QAbsent None)
                    Product.products eq_refl eq_refl)).
    reflexivity.
  - apply (proj1 (item_routes_gate example_runtime
                    (Request "DELETE" "/products/1.5" QAbsent None)
                    Product.products eq_refl eq_refl)).
    vm_compute. reflexivity.
  - rewrite (proj1 (proj2 (item_routes_gate example_runtime
                             (Request "GET" "/products/1002" QAbsent None)
                             Product.products eq_refl eq_refl)
                          ltac:(vm_compute; reflexivity)) eq_refl).
    vm_compute. reflexivity.
Defined.

(* --------------------------------------------------------------------- *)
(** *** The echo route *)
(* --------------------------------------------------------------------- *)

Lemma join_app (l1 l2 : list jsstring) :
  Utf16.join (l1 ++ l2) = Utf16.join l1 ++ Utf16.join l2.
Proof.
  induction l1 as [|x l1 IH]; simpl; [reflexivity |].
  rewrite IH. apply app_assoc.
Qed.

Lemma join_rev_split_chars (s : jsstring) :
  Utf16.join (rev (Utf16.split_chars s)) = rev s.
Proof.
  unfold Utf16.split_chars.
  induction s as [|u s IH]; simpl; [reflexivity |].
  rewrite join_app, IH. simpl. reflexivity.
Qed.

Lemma bmp_cons (u : N) (s : jsstring) :
  bmp (u :: s) = true ->
  Utf16.is_lead u = false /\ (u <? 65536)%N = true /\ bmp s = true.
Proof.
  unfold bmp. simpl. intros [Hu Hs]%andb_true_iff.
  split; [| split; [| exact Hs]].
  - unfold Utf16.is_lead.
    apply orb_true_iff in Hu as [H | [H _]%andb_true_iff].
    + apply N.ltb_lt in H. apply andb_false_iff. left. apply N.leb_gt. lia.
    + apply N.ltb_lt in H. apply andb_false_iff. right. apply N.leb_gt. lia.
  - apply orb_true_iff in Hu as [H | [_ H]%andb_true_iff]; [| exact H].
    apply N.ltb_lt in H. apply N.ltb_lt. lia.
Qed.

Lemma bmp_code_points (s : jsstring) :
  bmp s = true -> Utf16.code_points s = s.
Proof.
  induction s as [|u s IH]; [reflexivity |].
  intros (Hl & _ & Hs)%bmp_cons.
  cbn [Utf16.code_points]. destruct s as [|v rest]; [reflexivity |].
  rewrite Hl. cbn [andb]. rewrite (IH Hs). reflexivity.
Qed.

Lemma bmp_of_points (s : jsstring) :
  bmp s = true -> Utf16.of_points s = s.
Proof.
  unfold Utf16.of_points.
  induction s as [|u s IH]; [reflexivity |].
  intros (_ & Hu & Hs)%bmp_cons.
  cbn [List.flat_map]. unfold Utf16.units_of_point at 1. rewrite Hu, (IH Hs).
  reflexivity.
Qed.

Lemma bmp_rev (s : jsstring) : bmp s = true -> bmp (rev s) = true.
Proof.
  unfold bmp. rewrite !forallb_forall. intros H u Hu.
  apply H. apply in_rev. exact Hu.
Qed.

Lemma ascii_text_bmp (s : jsstring) : ascii_text s = true -> bmp s = true.
Proof.
  unfold ascii_text, bmp. rewrite !forallb_forall. intros H u Hu.
  apply H in Hu. apply N.ltb_lt in Hu.
  apply orb_true_iff. left. apply N.ltb_lt. lia.
Qed.

Lemma ascii_upper_below (u : N) : (u <? 128)%N = true -> (ascii_upper u <? 128)%N = true.
Proof.
  unfold ascii_upper. intros H. apply N.ltb_lt in H.
  destruct ((97 <=? u) && (u <=? 122))%N; apply N.ltb_lt; lia.
Qed.

(** On ASCII text [toUpperCase] does not consult the engine's table. *)
Lemma toUpperCase_ascii (rt : runtime) (s : jsstring) :
  ascii_text s = true -> toUpperCase rt s = map ascii_upper s.
Proof.
  intros Hs. unfold toUpperCase.
  rewrite (bmp_code_points s (ascii_text_bmp s Hs)).
  assert (Hm : List.flat_map (upperPoint rt) s = map ascii_upper s).
  { unfold ascii_text in Hs. induction s as [|u s IH]; [reflexivity |].
    simpl in Hs. apply andb_true_iff in Hs as [Hu Hs].
    cbn [List.flat_map map]. rewrite (IH Hs).
    unfold upperPoint, ascii_upper. rewrite Hu. reflexivity. }
  rewrite Hm. apply bmp_of_points, ascii_text_bmp.
  unfold ascii_text in *. rewrite forallb_forall in *.
  intros v [u [<- Hu]]%in_map_iff. apply ascii_upper_below, Hs, Hu.
Qed.

(** C4, as it is worded, fails: the length and the reversal of the echo
    route go by UTF-16 code units, not by characters. For the one
    character U+1F600, which is the surrogate pair [D83D DE00],
    [characterCount] is 2 and [backwards] is the pair with its halves
    swapped, which is not the string reversed character by character. *)
Lemma echo_counts_code_units :
  let face : jsstring := [55357%N; 56832%N] in
  char_count face = 1 /\
  char_reversed face = face /\
  handler example_runtime (Request "GET" "/echo" (QString face) None)
    Product.products =
  Ok (jsonResponse 200
        (VObj {[ "normal" := VStr face;
                 "shouty" := VStr face;
                 "characterCount" := VNum (Num.of_Z 2);
                 "backwards" := VStr [56832%N; 55357%N] ]}),
      Product.products) /\
  Num.of_Z 2 <> Num.of_Z (Z.of_nat (char_count face)) /\
  ([56832%N; 55357%N] : jsstring) <> char_reversed face.
Proof.
  cbv zeta. split; [reflexivity |]. split; [reflexivity |].
  split; [vm_compute; reflexivity |]. split; vm_compute; discriminate.
Qed.

(** C4 (amended). [GET /echo] with the query parameter [input] equal to a
    string [s] answers with the JSON object whose [normal] is [s], whose
    [shouty] is [s] in upper case, whose [characterCount] is the length of
    [s] in UTF-16 code units and whose [backwards] is [s] with its code
    units in reverse order; when [input] is absent or empty, [s] is
    [Hello]. For a string without surrogate code units these are the
    length in characters and the string reversed character by character;
    for ASCII text the upper case is that of the letters [a] to [z]. *)
Theorem echo_fields (rt : runtime) (st : Product.store) (b : option object)
  (q : query_value) (s : jsstring) :
  (q = QString s /\ s <> []) \/ ((q = QAbsent \/ q = QString []) /\ s = "Hello") ->
  handler rt (Request "GET" "/echo" q b) st =
  Ok (jsonResponse 200
        (VObj {[ "normal" := VStr s;
                 "shouty" := VStr (toUpperCase rt s);
                 "characterCount" := VNum (Num.of_Z (Z.of_nat (length s)));
                 "backwards" := VStr (rev s) ]}), st) /\
  (bmp s = true -> length s = char_count s /\ rev s = char_reversed s) /\
  (ascii_text s = true -> toUpperCase rt s = map ascii_upper s).
Proof.
  intros H. split; [| split].
  - assert (Hin : inputOrHello q = QString s).
    { destruct H as [[-> Hs] | [[-> | ->] ->]]; [| reflexivity | reflexivity].
      destruct s; [congruence | reflexivity]. }
    unfold handler. cbn [pathname method query_input json_body].
    cbn [andb orb negb String.eqb Ascii.eqb Bool.eqb].
    rewrite Hin. unfold echoData. rewrite join_rev_split_chars. reflexivity.
  - intros Hb. unfold char_count, char_reversed.
    rewrite (bmp_code_points s Hb). split; [reflexivity |].
    symmetry. apply bmp_of_points, bmp_rev, Hb.
  - apply toUpperCase_ascii.
Qed.

(** [GET /echo?input=abc], [GET /echo] without a query, and an input of
    two characters outside ASCII, [e] with acute accent and sharp [s],
    whose upper case has three. *)
Lemma echo_fields_witness :
  handler example_runtime (Request "GET" "/echo" (QString "abc") None)
    Product.products =
  Ok (jsonResponse 200
        (VObj {[ "normal" := VStr "abc";
                 "shouty" := VStr "ABC";
                 "characterCount" := VNum (Num.of_Z 3);
                 "backwards" := VStr "cba" ]}), Product.products) /\
  handler example_runtime (Request "GET" "/echo" QAbsent None)
    Product.products =
  Ok (jsonResponse 200
        (VObj {[ "normal" := VStr "Hello";
                 "shouty" := VStr "HELLO";
                 "characterCount" := VNum (Num.of_Z 5);
                 "backwards" := VStr "olleH" ]}), Product.products) /\
  handler example_runtime
    (Request "GET" "/echo" (QString [233%N; 223%N]) None) Product.products =
  Ok (jsonResponse 200
        (VObj {[ "normal" := VStr [233%N; 223%N];
                 "shouty" := VStr [201%N; 83%N; 83%N];
                 "characterCount" := VNum (Num.of_Z 2);
                 "backwards" := VStr [223%N; 233%N] ]}), Product.products).
Proof.
  split; [| split].
  - assert (Hq : (QString "abc" = QString "abc" /\ ("abc" : jsstring) <> []) \/
                 ((QString "abc" = QAbsent \/ QString "abc" = QString []) /\
                  ("abc" : jsstring) = "Hello")).
    { left. split; [reflexivity | discriminate]. }
    destruct (echo_fields example_runtime Product.products None
                (QString "abc") "abc" Hq) as [H _].
    rewrite H. vm_compute. reflexivity.
  - assert (Hq : (QAbsent = QString "Hello" /\ ("Hello" : jsstring) <> []) \/
                 ((QAbsent = QAbsent \/ QAbsent = QString []) /\
                  ("Hello" : jsstring) = "Hello")).
    { right. split; [left |]; reflexivity. }
    destruct (echo_fields example_runtime Product.products None
                QAbsent "Hello" Hq) as [H _].
    rewrite H. vm_compute. reflexivity.
  - assert (Hq : (QString [233%N; 223%N] = QString [233%N; 223%N] /\
                  ([233%N; 223%N] : jsstring) <> []) \/
                 ((QString [233%N; 223%N] = QAbsent \/
                   QString [233%N; 223%N] = QString []) /\
                  ([233%N; 223%N] : jsstring) = "Hello")).
    { left. split; [reflexivity | discriminate]. }
    destruct (echo_fields example_runtime Product.products None
                (QString [233%N; 223%N]) [233%N; 223%N] Hq) as [H _].
    rewrite H. vm_compute. reflexivity.
Defined.

(* --------------------------------------------------------------------- *)
(** *** Creating, reading and deleting over HTTP *)
(* --------------------------------------------------------------------- *)

Lemma item_path (seg : string) :
  Str.split "/" seg = [seg] ->
  Str.split "/" ("/products/" ++ seg)%string = [""; "products"; seg].
Proof. intros H. rewrite split_products, H. reflexivity. Qed.

(** C5. After [add(r)], where [r.id === X] and no record of the array had
    that id, [getById(X)] returns [r], a record whose id is [X]. Over
    HTTP: [POST /products] with the record as its body answers 201, and a
    following [GET /products/<seg>], where the id segment converts to the
    integer [X], answers 200 with that record. *)
Theorem add_then_getById (st : Product.store) (r : object) (X : value) :
  Product.has_id X r = true ->
  no_match X st ->
  (exists r', Product.getById (Product.add st r) X = Some r' /\
              Product.has_id X r' = true /\ r' = r) /\
  (forall rt seg q q' b',
      Str.split "/" seg = [seg] ->
      Num.isInteger (ToNumber.of_string seg) = true ->
      X = VNum (ToNumber.of_string seg) ->
      exists st',
        handler rt (Request "POST" "/products" q (Some r)) st =
          Ok (jsonResponse 201
                (VObj {[ "status" := VStr "Created";
                         "message" := VStr "Product created successfully" ]}),
              st') /\
        handler rt (Request "GET" ("/products/" ++ seg) q' b') st' =
          Ok (jsonResponse 200
                (VObj {[ "status" := VStr "OK"; "product" := VObj r ]}), st')).
Proof.
  intros Hr Hst. split.
  - exists r. split; [apply getById_add; assumption | split; [exact Hr | reflexivity]].
  - intros rt seg q q' b' Hseg Hint ->. exists (Product.add st r).
    split; [apply handler_post |].
    pose proof (item_path seg Hseg) as Hp.
    rewrite handler_item_get; cbn [pathname method]; rewrite ?Hp;
      try reflexivity; try exact Hint.
    cbn [lookup list_lookup ToNumber.Number].
    rewrite getById_add by assumption. reflexivity.
Qed.

(** The example of the specification: the hat. *)
Lemma add_then_getById_witness :
  let hat := Product.record 2000 "Hat" "X-1" 1000 in
  exists st',
    handler example_runtime (Request "POST" "/products" QAbsent (Some hat))
      Product.products =
      Ok (jsonResponse 201
            (VObj {[ "status" := VStr "Created";
                     "message" := VStr "Product created successfully" ]}),
          st') /\
    handler example_runtime (Request "GET" "/products/2000" QAbsent None) st' =
      Ok (jsonResponse 200
            (VObj {[ "status" := VStr "OK"; "product" := VObj hat ]}), st').
Proof.
  cbv zeta.
  refine (proj2 (add_then_getById Product.products
                   (Product.record 2000 "Hat" "X-1" 1000)
                   (VNum (Num.of_Z 2000)) _ _)
                example_runtime "2000" QAbsent QAbsent None _ _ _).
  - vm_compute. reflexivity.
  - repeat constructor.
  - reflexivity.
  - vm_compute. reflexivity.
  - vm_compute. reflexivity.
Defined.

(** C6. When exactly one record has the id, [remove(id)] followed by
    [getById(id)] finds nothing. Over HTTP: [DELETE /products/<seg>], where
    the id segment converts to that id, answers 200, and a following
    [GET /products/<seg>] answers 404 with [{status: "Not Found"}]. *)
Theorem remove_then_getById (st : Product.store) (id : value) :
  occurrences id st = 1 ->
  (exists st', Product.remove st id = (true, st') /\
               Product.getById st' id = None) /\
  (forall rt seg q q' b b',
      Str.split "/" seg = [seg] ->
      Num.isInteger (ToNumber.of_string seg) = true ->
      id = VNum (ToNumber.of_string seg) ->
      exists st',
        handler rt (Request "DELETE" ("/products/" ++ seg) q b) st =
          Ok (jsonResponse 200 (statusOnly "OK"), st') /\
        handler rt (Request "GET" ("/products/" ++ seg) q' b') st' =
          Ok (jsonResponse 404 (statusOnly "Not Found"), st')).
Proof.
  intros (before & target & after & Hfm & Ha)%single_occurrence. split.
  - exists (before ++ after).
    split; [apply (remove_first_match _ _ _ target); exact Hfm |].
    apply (getById_remove st id before target after); assumption.
  - intros rt seg q q' b b' Hseg Hint ->. exists (before ++ after).
    pose proof (item_path seg Hseg) as Hp.
    split.
    + rewrite handler_item_delete; cbn [pathname method]; rewrite ?Hp;
        try reflexivity; try exact Hint.
      cbn [lookup list_lookup ToNumber.Number].
      rewrite (remove_first_match _ _ _ target _ Hfm). reflexivity.
    + rewrite handler_item_get; cbn [pathname method]; rewrite ?Hp;
        try reflexivity; try exact Hint.
      cbn [lookup list_lookup ToNumber.Number].
      rewrite (getById_remove st _ before target after) by assumption.
      reflexivity.
Qed.

(** [DELETE /products/1001], then [GET /products/1001]. *)
Lemma remove_then_getById_witness :
  exists st',
    handler example_runtime (Request "DELETE" "/products/1001" QAbsent None)
      Product.products = Ok (jsonResponse 200 (statusOnly "OK"), st') /\
    handler example_runtime (Request "GET" "/products/1001" QAbsent None) st' =
      Ok (jsonResponse 404 (statusOnly "Not Found"), st').
Proof.
  refine (proj2 (remove_then_getById Product.products (VNum (Num.of_Z 1001)) _)
                example_runtime "1001" QAbsent QAbsent None None _ _ _).
  - vm_compute. reflexivity.
  - reflexivity.
  - vm_compute. reflexivity.
  - vm_compute. reflexivity.
Defined.

(* --------------------------------------------------------------------- *)
(** *** Static files *)
(* --------------------------------------------------------------------- *)

Lemma contentTypeOf_table (ext : string) : contentTypeOf ext = mimeOf ext.
Proof.
  unfold contentTypeOf, mimeOf, mimeTable. cbn [List.find fst snd].
  repeat (destruct (String.eqb ext _); [reflexivity |]).
  reflexivity.
Qed.

Lemma prefix_append (a r : string) : String.prefix a (a ++ r)%string = true.
Proof.
  induction a as [|c a IH]; [apply prefix_empty |].
  change (String c a ++ r)%string with (String c (a ++ r)%string).
  cbn [String.prefix]. destruct (ascii_dec c c); [exact IH | congruence].
Qed.

Lemma drop_append (a r : string) :
  Str.drop (String.length a) (a ++ r)%string = r.
Proof.
  induction a as [|c a IH]; [destruct r; reflexivity |].
  change (String c a ++ r)%string with (String c (a ++ r)%string).
  cbn [String.length Str.drop]. exact IH.
Qed.

Lemma replace_at_start (pat rep r : string) :
  Str.replace pat rep (pat ++ r)%string = (rep ++ r)%string.
Proof.
  pose proof (prefix_append pat r) as Hp.
  pose proof (drop_append pat r) as Hd.
  destruct (pat ++ r)%string as [|c s]; cbn [Str.replace];
    rewrite Hp, Hd; reflexivity.
Qed.

(** C8. A static file that is served gets the content type that the table
    gives to its extension, letter case apart: [text/html] for [.html],
    [image/jpeg] for [.jpg] and [.jpeg], [image/png] for [.png],
    [text/css] for [.css], [application/javascript] for [.js],
    [application/pdf] for [.pdf], [text/csv] for [.csv], [text/plain] for
    [.txt], and [application/octet-stream] for any other extension. *)
Theorem static_content_type (rt : runtime) :
  (forall filePath,
      existsSync rt filePath = true ->
      staticFileResponse rt filePath =
        Response 200 (mimeOf (Str.toLowerCase (Path.extname filePath)))
          (File filePath)) /\
  (forall st q b rest,
      let filePath := Path.join [dirname rt; "public"; rest] in
      existsSync rt filePath = true ->
      handler rt (Request "GET" ("/static/" ++ rest) q b) st =
        Ok (Response 200 (mimeOf (Str.toLowerCase (Path.extname filePath)))
              (File filePath), st)).
Proof.
  assert (Hs : forall filePath,
             existsSync rt filePath = true ->
             staticFileResponse rt filePath =
               Response 200 (mimeOf (Str.toLowerCase (Path.extname filePath)))
                 (File filePath)).
  { intros filePath Hex. unfold staticFileResponse. rewrite Hex. cbn [negb].
    rewrite contentTypeOf_table. reflexivity. }
  split; [exact Hs |].
  intros st q b rest filePath Hex.
  unfold handler. cbn [pathname method query_input json_body].
  rewrite replace_at_start. change ("" ++ rest)%string with rest.
  fold filePath. rewrite (Hs filePath Hex).
  unfold Str.startsWith. rewrite prefix_append. reflexivity.
Qed.

(** [GET /static/style.css], the file being there; and a file whose
    extension is not in the table. *)
Lemma static_content_type_witness :
  handler example_runtime (Request "GET" "/static/style.css" QAbsent None)
    Product.products =
  Ok (Response 200 "text/css" (File "/app/public/style.css"), Product.products) /\
  staticFileResponse (Runtime "/app" (fun _ => true) (fun cp => [cp])) "/app/public/data.bin" =
  Response 200 "application/octet-stream" (File "/app/public/data.bin").
Proof.
  split.
  - apply (proj2 (static_content_type example_runtime) Product.products
             QAbsent None "style.css" eq_refl).
  - apply (proj1 (static_content_type (Runtime "/app" (fun _ => true) (fun cp => [cp])))
             "/app/public/data.bin" eq_refl).
Defined.

(* --------------------------------------------------------------------- *)
(** *** Further examples of the specification *)
(* --------------------------------------------------------------------- *)

(** [GET /products/9999]: no such record. *)
Example get_missing_product :
  handler example_runtime (Request "GET" "/products/9999" QAbsent None)
    Product.products =
  Ok (jsonResponse 404 (statusOnly "Not Found"), Product.products).
Proof. vm_compute. reflexivity. Qed.

(** [GET /static/missing.txt]: no such file. *)
Example get_missing_file :
  handler example_runtime (Request "GET" "/static/missing.txt" QAbsent None)
    Product.products =
  Ok (notFoundResponse, Product.products).
Proof. vm_compute. reflexivity. Qed.

(** A request that no route matches. *)
Example put_is_not_routed :
  handler example_runtime (Request "PUT" "/products/1001" QAbsent None)
    Product.products =
  Ok (notFoundResponse, Product.products).
Proof. vm_compute. reflexivity. Qed.

(** A body that is not JSON: the exception of [JSON.parse] is not caught. *)
Example post_malformed_body :
  handler example_runtime (Request "POST" "/products" QAbsent None)
    Product.products = Throw SyntaxError.
Proof. reflexivity. Qed.

(* ===================================================================== *)
(** ** More on the store *)
(* ===================================================================== *)

Lemma find_app {A : Type} (p : A -> bool) (l1 l2 : list A) :
  find p (l1 ++ l2) =
  match find p l1 with
  | Some x => Some x
  | None => find p l2
  end.
Proof.
  induction l1 as [|x l1 IH]; simpl; [reflexivity |].
  destruct (p x); [reflexivity | exact IH].
Qed.

Lemma find_no_match {A : Type} (p : A -> bool) (l : list A) :
  find p l = None -> Forall (fun x => p x = false) l.
Proof.
  induction l as [|x l IH]; simpl; intros H; [constructor |].
  destruct (p x) eqn:Hx; [discriminate |]. constructor; auto.
Qed.

Lemma present_not_no_match (id : value) (st : Product.store) :
  present id st <-> ~ no_match id st.
Proof.
  split.
  - intros (r & Hin & Hr) Hn. unfold no_match in Hn.
    rewrite Forall_forall in Hn. apply Hn in Hin. congruence.
  - intros Hn. destruct (first_match_or_none id st)
      as [H | (before & target & after & -> & _ & Ht)]; [contradiction |].
    exists target. split; [| exact Ht].
    apply elem_of_app. right. left.
Qed.

Lemma occurrences_app (id : value) (l1 l2 : Product.store) :
  occurrences id (l1 ++ l2) = occurrences id l1 + occurrences id l2.
Proof.
  unfold occurrences. rewrite List.filter_app, length_app. reflexivity.
Qed.

Lemma occurrences_no_match (id : value) (st : Product.store) :
  no_match id st -> occurrences id st = 0.
Proof.
  unfold occurrences. induction 1 as [|x l Hx _ IH]; simpl; [reflexivity |].
  rewrite Hx. exact IH.
Qed.

Lemma updated_has_id (id : value) (data target : object) :
  Product.has_id id (updated data target) = Product.has_id id target.
Proof. unfold Product.has_id. rewrite updated_id. reflexivity. Qed.

Lemma first_match_updated (id : value) (st before : Product.store)
  (target : object) (after : Product.store) (data : object) :
  first_match id st before target after ->
  first_match id (before ++ updated data target :: after)
    before (updated data target) after.
Proof.
  intros (_ & Hb & Ht). split; [reflexivity |]. split; [exact Hb |].
  rewrite updated_has_id. exact Ht.
Qed.

Lemma updated_lookup (data target : object) (k : string) :
  k ∈ updatable ->
  updated data target !! k
  = Some (coalesce (get_prop data k) (get_prop target k)).
Proof.
  unfold updatable, updated, set_prop. rewrite !elem_of_cons, elem_of_nil.
  intros [-> | [-> | [-> | []]]].
  - rewrite !lookup_insert_ne by discriminate. rewrite lookup_insert_eq.
    reflexivity.
  - rewrite lookup_insert_ne by discriminate. rewrite lookup_insert_eq.
    unfold get_prop at 2. rewrite lookup_insert_ne by discriminate.
    reflexivity.
  - rewrite lookup_insert_eq.
    unfold get_prop at 2. rewrite !lookup_insert_ne by discriminate.
    reflexivity.
Qed.

Lemma coalesce_again (a b : value) : coalesce a (coalesce a b) = coalesce a b.
Proof. unfold coalesce. destruct (nullish a); reflexivity. Qed.

Lemma updated_twice (data target : object) :
  updated data (updated data target) = updated data target.
Proof.
  set (u := updated data target).
  assert (Hk : forall k, k ∈ updatable ->
             coalesce (get_prop data k) (get_prop u k) = get_prop u k
             /\ u !! k = Some (get_prop u k)).
  { intros k Hk.
    assert (Hu : get_prop u k = coalesce (get_prop data k) (get_prop target k)).
    { subst u. rewrite updated_get, bool_decide_eq_true_2 by exact Hk.
      reflexivity. }
    rewrite Hu. split; [apply coalesce_again |].
    subst u. apply updated_lookup. exact Hk. }
  assert (Ht : "title" ∈ updatable) by (unfold updatable; repeat constructor).
  assert (Hs : "sku" ∈ updatable) by (unfold updatable; repeat constructor).
  assert (Hp : "price" ∈ updatable) by (unfold updatable; repeat constructor).
  unfold updated at 1. unfold set_prop. cbv zeta.
  rewrite (proj1 (Hk _ Ht)), (insert_id u _ _ (proj2 (Hk _ Ht))).
  rewrite (proj1 (Hk _ Hs)), (insert_id u _ _ (proj2 (Hk _ Hs))).
  rewrite (proj1 (Hk _ Hp)), (insert_id u _ _ (proj2 (Hk _ Hp))).
  reflexivity.
Qed.

Lemma updated_ext (data data' target : object) :
  (forall k, k ∈ updatable -> get_prop data k = get_prop data' k) ->
  updated data target = updated data' target.
Proof.
  intros H. unfold updated.
  rewrite (H "title") by (unfold updatable; repeat constructor).
  rewrite (H "sku") by (unfold updatable; repeat constructor).
  rewrite (H "price") by (unfold updatable; repeat constructor).
  reflexivity.
Qed.

(** X1. [getById] finds nothing exactly when no record has the id, and it
    returns a record exactly when that record is the first one of the array
    with the id. *)
Theorem getById_first_match (st : Product.store) (id : value) :
  (Product.getById st id = None <-> no_match id st) /\
  (forall r, Product.getById st id = Some r <->
             exists before after, first_match id st before r after).
Proof.
  split.
  - split; [apply find_no_match | apply find_None].
  - intros r. split.
    + intros Hr.
      destruct (first_match_or_none id st)
        as [Hn | (before & target & after & Hfm)].
      * unfold Product.getById in Hr. rewrite (find_None _ _ Hn) in Hr.
        discriminate.
      * pose proof Hfm as (-> & Hb & Ht).
        unfold Product.getById in Hr.
        rewrite (find_first _ _ _ _ Hb Ht) in Hr. injection Hr as <-.
        exists before, after. exact Hfm.
    + intros (before & after & -> & Hb & Ht).
      apply find_first; assumption.
Qed.

(** X2. [add] never replaces or hides a record: after [add(r)], [getById]
    still returns the record it returned before; only an id that no record
    had is answered by [r], when [r] has it. *)
Theorem getById_after_add (st : Product.store) (r : object) (id : value) :
  Product.getById (Product.add st r) id =
  match Product.getById st id with
  | Some found => Some found
  | None => if Product.has_id id r then Some r else None
  end.
Proof.
  unfold Product.getById, Product.add. rewrite find_app. simpl.
  destruct (find (Product.has_id id) st); [reflexivity |].
  destruct (Product.has_id id r); reflexivity.
Qed.

(** X3. [remove] and [update] report [true] exactly when some record has
    the id, that is exactly when [getById] finds one. *)
Theorem found_exactly_when_present
  (st : Product.store) (id : value) (data : object) :
  (fst (Product.remove st id) = true <-> present id st) /\
  (fst (Product.update st id data) = true <-> present id st) /\
  (is_Some (Product.getById st id) <-> present id st).
Proof.
  destruct (first_match_or_none id st)
    as [Hn | (before & target & after & Hfm)].
  - assert (Hnp : ~ present id st)
      by (intros Hp; apply present_not_no_match in Hp; contradiction).
    rewrite (remove_no_match _ _ Hn), (update_no_match _ _ data Hn).
    unfold Product.getById. rewrite (find_None _ _ Hn). simpl.
    repeat split; try discriminate; try contradiction.
    intros [x Hx]. discriminate.
  - assert (Hp : present id st).
    { destruct Hfm as (-> & _ & Ht). exists target. split; [| exact Ht].
      apply elem_of_app. right. left. }
    rewrite (remove_first_match _ _ _ _ _ Hfm),
      (update_first_match _ _ _ _ _ data Hfm).
    destruct Hfm as (-> & Hb & Ht).
    unfold Product.getById. rewrite (find_first _ _ _ _ Hb Ht). simpl.
    repeat split; eauto.
Qed.

Lemma occurrences_cons (id : value) (r : object) (st : Product.store) :
  occurrences id (r :: st)
  = (if Product.has_id id r then 1 else 0) + occurrences id st.
Proof. unfold occurrences. simpl. destruct (Product.has_id id r); reflexivity. Qed.

(** A store with two records of the id 1002, for the examples. *)
Lemma duplicate_first_match :
  first_match (VNum (Num.of_Z 1002))
    (Product.add Product.products (Product.record 1002 "Hat" "X-1" 1000))
    [Product.record 1001 "T-Shirt" "ABC-1001" 49900]
    (Product.record 1002 "Cap" "ABC-1002" 19900)
    [Product.record 1003 "Jeans" "ABC-1003" 99900;
     Product.record 1002 "Hat" "X-1" 1000].
Proof.
  split; [reflexivity |]. split; [| vm_compute; reflexivity].
  constructor; [vm_compute; reflexivity | constructor].
Defined.

(** X4. [remove] takes out one record at most: the number of records with
    the id goes down by one (it stays 0 when it was 0), and the array gets
    shorter by one exactly when [remove] returns [true]. *)
Theorem remove_takes_one (st : Product.store) (id : value) :
  occurrences id (snd (Product.remove st id)) = Nat.pred (occurrences id st) /\
  length (snd (Product.remove st id)) + (if fst (Product.remove st id) then 1 else 0)
    = length st.
Proof.
  destruct (first_match_or_none id st)
    as [Hn | (before & target & after & Hfm)].
  - rewrite (remove_no_match _ _ Hn). simpl.
    rewrite (occurrences_no_match _ _ Hn). split; [reflexivity | lia].
  - rewrite (remove_first_match _ _ _ _ _ Hfm). simpl.
    destruct Hfm as (-> & Hb & Ht).
    rewrite !occurrences_app, occurrences_cons, Ht, !length_app. simpl.
    split; lia.
Qed.

(** X5. After [remove(id)] took out the first record with the id,
    [getById(id)] answers with the next record of that id, if there is
    one; and for an id that the removed record does not have, [getById]
    answers as before. *)
Theorem getById_after_remove (st : Product.store) (id : value)
  (before : Product.store) (target : object) (after : Product.store) :
  first_match id st before target after ->
  Product.getById (snd (Product.remove st id)) id = Product.getById after id /\
  (forall id', Product.has_id id' target = false ->
     Product.getById (snd (Product.remove st id)) id' = Product.getById st id').
Proof.
  intros Hfm. rewrite (remove_first_match _ _ _ _ _ Hfm). simpl.
  destruct Hfm as (-> & Hb & Ht). unfold Product.getById. split.
  - rewrite find_app, (find_None _ _ Hb). reflexivity.
  - intros id' Hid'. rewrite !find_app. simpl. rewrite Hid'. reflexivity.
Qed.

Lemma getById_after_remove_witness :
  Product.getById
    (snd (Product.remove
            (Product.add Product.products (Product.record 1002 "Hat" "X-1" 1000))
            (VNum (Num.of_Z 1002))))
    (VNum (Num.of_Z 1002))
  = Some (Product.record 1002 "Hat" "X-1" 1000).
Proof.
  rewrite (proj1 (getById_after_remove _ _ _ _ _ duplicate_first_match)).
  vm_compute. reflexivity.
Defined.

(** X6. After an [update] that found the id, [getById] of the same id
    returns the record that was found before, with [title], [sku] and
    [price] replaced by the values of the partial object that are neither
    absent nor [null], and every other property as it was. *)
Theorem getById_after_update (st : Product.store) (id : value) (data : object) :
  present id st ->
  exists target target',
    Product.getById st id = Some target /\
    Product.getById (snd (Product.update st id data)) id = Some target' /\
    (forall k,
        get_prop target' k =
        if bool_decide (k ∈ updatable)
        then coalesce (get_prop data k) (get_prop target k)
        else get_prop target k).
Proof.
  intros (before & target & after & Hfm)%present_first_match.
  exists target, (updated data target).
  rewrite (update_first_match _ _ _ _ _ data Hfm). simpl.
  pose proof (first_match_updated _ _ _ _ _ data Hfm) as (_ & Hb' & Ht').
  destruct Hfm as (-> & Hb & Ht). unfold Product.getById.
  rewrite (find_first _ _ _ _ Hb Ht), (find_first _ _ _ _ Hb' Ht').
  repeat split. intros k. apply updated_get.
Qed.

Lemma getById_after_update_witness :
  exists target target',
    Product.getById Product.products (VNum (Num.of_Z 1002)) = Some target /\
    Product.getById
      (snd (Product.update Product.products (VNum (Num.of_Z 1002))
              {[ "sku" := VStr "" ]}))
      (VNum (Num.of_Z 1002)) = Some target' /\
    (forall k,
        get_prop target' k =
        if bool_decide (k ∈ updatable)
        then coalesce (get_prop ({[ "sku" := VStr "" ]} : object) k)
               (get_prop target k)
        else get_prop target k).
Proof. exact (getById_after_update _ _ _ products_has_1002). Defined.

(** X7. Repeating an [update] changes nothing more: the second call returns
    what the first returned and leaves the array the first one left. *)
Theorem update_twice (st : Product.store) (id : value) (data : object) :
  Product.update (snd (Product.update st id data)) id data
  = Product.update st id data.
Proof.
  destruct (first_match_or_none id st)
    as [Hn | (before & target & after & Hfm)].
  - rewrite (update_no_match _ _ data Hn). simpl.
    apply update_no_match. exact Hn.
  - rewrite (update_first_match _ _ _ _ _ data Hfm). simpl.
    rewrite (update_first_match _ _ _ _ _ data
               (first_match_updated _ _ _ _ _ data Hfm)).
    rewrite updated_twice. reflexivity.
Qed.

(** X8. [update] reads [title], [sku] and [price] of the partial object and
    nothing else: two partial objects that agree on these three give the
    same result, whatever else they hold (an [id], other properties). *)
Theorem update_reads_three_fields
  (st : Product.store) (id : value) (data data' : object) :
  (forall k, k ∈ updatable -> get_prop data k = get_prop data' k) ->
  Product.update st id data = Product.update st id data'.
Proof.
  intros H. destruct (first_match_or_none id st)
    as [Hn | (before & target & after & Hfm)].
  - rewrite !(update_no_match _ _ _ Hn). reflexivity.
  - rewrite !(update_first_match _ _ _ _ _ _ Hfm).
    rewrite (updated_ext data data' target H). reflexivity.
Qed.

Lemma update_reads_three_fields_witness :
  Product.update Product.products (VNum (Num.of_Z 1002))
    {[ "title" := VStr "Beanie"; "id" := VNum (Num.of_Z 7);
       "colour" := VStr "red" ]}
  = Product.update Product.products (VNum (Num.of_Z 1002))
      {[ "title" := VStr "Beanie" ]}.
Proof.
  apply update_reads_three_fields.
  intros k Hk. unfold updatable in Hk.
  rewrite !elem_of_cons, elem_of_nil in Hk.
  destruct Hk as [-> | [-> | [-> | []]]]; reflexivity.
Defined.

(* ===================================================================== *)
(** ** More on the request handler *)
(* ===================================================================== *)

(** The handler, method by method. *)
Lemma handler_POST (rt : runtime) (req : request) (st : Product.store) :
  method req = "POST" ->
  handler rt req st =
  if (length (Str.split "/" (pathname req)) =? 2)%nat
     && is_string (Str.split "/" (pathname req) !! 1) "products"
  then match json_body req with
       | None => Throw SyntaxError
       | Some productData =>
           Ok (jsonResponse 201
                 (VObj {[ "status" := VStr "Created";
                          "message" := VStr "Product created successfully" ]}),
               Product.add st productData)
       end
  else Ok (notFoundResponse, st).
Proof.
  intros Hm. unfold handler. cbv zeta. rewrite Hm.
  cbn [String.eqb Ascii.eqb Bool.eqb andb orb].
  destruct ((length (Str.split "/" (pathname req)) =? 2)%nat
            && is_string (Str.split "/" (pathname req) !! 1) "products");
    reflexivity.
Qed.

Lemma handler_PATCH (rt : runtime) (req : request) (st : Product.store) :
  method req = "PATCH" ->
  handler rt req st =
  if (length (Str.split "/" (pathname req)) =? 3)%nat
     && is_string (Str.split "/" (pathname req) !! 1) "products"
     && Num.isInteger (ToNumber.Number (Str.split "/" (pathname req) !! 2))
  then match json_body req with
       | None => Throw SyntaxError
       | Some productData =>
           let '(isUpdated, st') :=
             Product.update st
               (VNum (ToNumber.Number (Str.split "/" (pathname req) !! 2)))
               productData in
           if isUpdated
           then Ok (jsonResponse 200 (statusOnly "OK"), st')
           else Ok (jsonResponse 404 (statusOnly "Not Found"), st')
       end
  else Ok (notFoundResponse, st).
Proof.
  intros Hm. unfold handler. cbv zeta. rewrite Hm.
  cbn [String.eqb Ascii.eqb Bool.eqb andb orb].
  destruct ((length (Str.split "/" (pathname req)) =? 3)%nat
            && is_string (Str.split "/" (pathname req) !! 1) "products"
            && Num.isInteger _); [| reflexivity].
  destruct (json_body req) as [data|]; [| reflexivity].
  destruct (Product.update _ _ _) as [[] st']; reflexivity.
Qed.

Lemma handler_DELETE (rt : runtime) (req : request) (st : Product.store) :
  method req = "DELETE" ->
  handler rt req st =
  if (length (Str.split "/" (pathname req)) =? 3)%nat
     && is_string (Str.split "/" (pathname req) !! 1) "products"
     && Num.isInteger (ToNumber.Number (Str.split "/" (pathname req) !! 2))
  then
    let '(removed, st') :=
      Product.remove st
        (VNum (ToNumber.Number (Str.split "/" (pathname req) !! 2))) in
    if removed
    then Ok (jsonResponse 200 (statusOnly "OK"), st')
    else Ok (jsonResponse 404 (statusOnly "Not Found"), st')
  else Ok (notFoundResponse, st).
Proof.
  intros Hm. unfold handler. cbv zeta. rewrite Hm.
  cbn [String.eqb Ascii.eqb Bool.eqb andb orb].
  destruct ((length (Str.split "/" (pathname req)) =? 3)%nat
            && is_string (Str.split "/" (pathname req) !! 1) "products"
            && Num.isInteger _); [| reflexivity].
  destruct (Product.remove _ _) as [[] st']; reflexivity.
Qed.

(** X9. A request whose method is none of GET, POST, PATCH and DELETE is
    answered by the 404 HTML fallback, whatever its path, and leaves the
    array as it is. Methods are compared as they are written. *)
Theorem other_methods_not_found (rt : runtime) (req : request)
  (st : Product.store) :
  method req <> "GET" -> method req <> "POST" ->
  method req <> "PATCH" -> method req <> "DELETE" ->
  handler rt req st = Ok (notFoundResponse, st).
Proof.
  intros Hg Hp Hpa Hd. unfold handler. cbv zeta.
  rewrite (proj2 (String.eqb_neq _ _) Hg), (proj2 (String.eqb_neq _ _) Hp),
    (proj2 (String.eqb_neq _ _) Hpa), (proj2 (String.eqb_neq _ _) Hd).
  reflexivity.
Qed.

Lemma other_methods_not_found_witness :
  handler example_runtime (Request "get" "/products" QAbsent None)
    Product.products = Ok (notFoundResponse, Product.products) /\
  handler example_runtime (Request "PUT" "/products/1001" QAbsent None)
    Product.products = Ok (notFoundResponse, Product.products).
Proof.
  split; apply other_methods_not_found; discriminate.
Defined.

(** X10. A GET request never changes the array, whatever it is answered. *)
Theorem get_leaves_store (rt : runtime) (req : request) (st : Product.store)
  (resp : response) (st' : Product.store) :
  method req = "GET" ->
  handler rt req st = Ok (resp, st') ->
  st' = st.
Proof.
  intros Hm. unfold handler. cbv zeta. rewrite Hm.
  cbn [String.eqb Ascii.eqb Bool.eqb andb orb].
  repeat match goal with
         | |- context [if ?b then _ else _] => destruct b
         | |- context [match ?o with Some _ => _ | None => _ end] => destruct o
         | |- context [match ?q with QAbsent => _ | QString _ => _ | QArray _ => _ end] =>
             destruct q
         end;
    intros H; try discriminate; injection H as _ <-; reflexivity.
Qed.

Lemma get_leaves_store_witness :
  exists resp st',
    handler example_runtime (Request "GET" "/products/1002" QAbsent None)
      Product.products = Ok (resp, st') /\
    st' = Product.products.
Proof.
  assert (H : handler example_runtime
                (Request "GET" "/products/1002" QAbsent None) Product.products
              = Ok (jsonResponse 200
                      (VObj {[ "status" := VStr "OK";
                               "product" :=
                                 VObj (Product.record 1002 "Cap" "ABC-1002" 19900) ]}),
                    Product.products))
    by (vm_compute; reflexivity).
  eexists _, _. split; [exact H |].
  apply (get_leaves_store _ _ _ _ _ (eq_refl : method (Request "GET" "/products/1002" QAbsent None) = "GET") H).
Defined.

Lemma is_string_true (x : option string) (s : string) :
  is_string x s = true <-> x = Some s.
Proof.
  destruct x as [y|]; simpl; [| split; discriminate].
  rewrite String.eqb_eq. split; [intros ->; reflexivity | congruence].
Qed.

Lemma route_guard (n : nat) (p : string) (extra : bool) :
  (length (Str.split "/" p) =? n)%nat
  && is_string (Str.split "/" p !! 1) "products" && extra = true <->
  length (Str.split "/" p) = n /\ Str.split "/" p !! 1 = Some "products" /\
  extra = true.
Proof.
  rewrite !andb_true_iff, Nat.eqb_eq, is_string_true. tauto.
Qed.

(** X11. Three requests that the handler does not answer. [GET /echo] with
    the parameter [input] repeated, so that [query.input] is an array,
    throws a TypeError: an array has no [toUpperCase]. A POST to the
    collection, and a PATCH to an item with an integer id, throw the
    SyntaxError of [JSON.parse] when the body is not JSON; the PATCH does
    so whether or not a record has that id, and the array is not looked
    at. *)
Theorem handler_throws (rt : runtime) (req : request) (st : Product.store) :
  (method req = "GET" -> pathname req = "/echo" ->
   (exists l, query_input req = QArray l) ->
   handler rt req st = Throw TypeError) /\
  (method req = "POST" -> json_body req = None ->
   length (Str.split "/" (pathname req)) = 2 ->
   Str.split "/" (pathname req) !! 1 = Some "products" ->
   handler rt req st = Throw SyntaxError) /\
  (method req = "PATCH" -> json_body req = None ->
   length (Str.split "/" (pathname req)) = 3 ->
   Str.split "/" (pathname req) !! 1 = Some "products" ->
   Num.isInteger (ToNumber.Number (Str.split "/" (pathname req) !! 2)) = true ->
   handler rt req st = Throw SyntaxError).
Proof.
  split; [| split].
  - intros Hm Hp [l Hq]. unfold handler. cbv zeta. rewrite Hm, Hp, Hq.
    reflexivity.
  - intros Hm Hb Hl Hr. apply is_string_true in Hr.
    rewrite (handler_POST _ _ _ Hm), Hl, Hr, Hb. reflexivity.
  - intros Hm Hb Hl Hr Hi. apply is_string_true in Hr.
    rewrite (handler_PATCH _ _ _ Hm), Hl, Hr, Hi, Hb. reflexivity.
Qed.

(** [GET /echo?input=a&input=b]; a POST and a PATCH without a JSON body,
    the PATCH to an id that no record has. *)
Lemma handler_throws_witness :
  handler example_runtime
    (Request "GET" "/echo" (QArray ["a" : jsstring; "b" : jsstring]) None)
    Product.products = Throw TypeError /\
  handler example_runtime (Request "POST" "/products" QAbsent None)
    Product.products = Throw SyntaxError /\
  handler example_runtime (Request "PATCH" "/products/9999" QAbsent None)
    Product.products = Throw SyntaxError.
Proof.
  split; [| split].
  - apply (proj1 (handler_throws example_runtime
             (Request "GET" "/echo" (QArray ["a" : jsstring; "b" : jsstring]) None)
             Product.products)); [reflexivity | reflexivity |].
    eexists. reflexivity.
  - apply (proj1 (proj2 (handler_throws example_runtime
             (Request "POST" "/products" QAbsent None) Product.products)));
      reflexivity.
  - apply (proj2 (proj2 (handler_throws example_runtime
             (Request "PATCH" "/products/9999" QAbsent None) Product.products)));
      solve [reflexivity | vm_compute; reflexivity].
Defined.

Lemma update_length (st : Product.store) (id : value) (data : object) :
  length (snd (Product.update st id data)) = length st.
Proof.
  destruct (first_match_or_none id st)
    as [Hn | (before & target & after & Hfm)].
  - rewrite (update_no_match _ _ data Hn). reflexivity.
  - rewrite (update_first_match _ _ _ _ _ data Hfm).
    destruct Hfm as (-> & _ & _). simpl. rewrite !length_app. reflexivity.
Qed.

Lemma remove_length (st : Product.store) (id : value) (st' : Product.store) :
  Product.remove st id = (true, st') -> length st' + 1 = length st.
Proof.
  intros H. destruct (first_match_or_none id st)
    as [Hn | (before & target & after & Hfm)].
  - rewrite (remove_no_match _ _ Hn) in H. discriminate.
  - rewrite (remove_first_match _ _ _ _ _ Hfm) in H. injection H as <-.
    destruct Hfm as (-> & _ & _). rewrite !length_app. simpl. lia.
Qed.

Lemma remove_false (st : Product.store) (id : value) (st' : Product.store) :
  Product.remove st id = (false, st') -> st' = st.
Proof.
  unfold Product.remove. destruct (findIndex _ _); intros H;
    [discriminate | injection H as <-; reflexivity].
Qed.

Lemma update_false (st : Product.store) (id : value) (data : object)
  (st' : Product.store) :
  Product.update st id data = (false, st') -> st' = st.
Proof.
  unfold Product.update. destruct (findIndex _ _); intros H;
    [discriminate | injection H as <-; reflexivity].
Qed.

Lemma handler_GET (rt : runtime) (req : request) (st : Product.store)
  (resp : response) (st' : Product.store) :
  method req = "GET" ->
  handler rt req st = Ok (resp, st') ->
  st' = st /\ (statusCode resp = 200%Z \/ statusCode resp = 404%Z).
Proof.
  intros Hm. unfold handler. cbv zeta. rewrite Hm.
  cbn [String.eqb Ascii.eqb Bool.eqb andb orb].
  unfold staticFileResponse.
  repeat match goal with
         | |- context [if ?b then _ else _] => destruct b
         | |- context [match ?o with Some _ => _ | None => _ end] => destruct o
         | |- context [match ?q with QAbsent => _ | QString _ => _ | QArray _ => _ end] =>
             destruct q
         end;
    intros H; try discriminate; injection H as <- <-;
    (split; [reflexivity | (left; reflexivity) || (right; reflexivity)]).
Qed.

(** X12. What a request that is answered has done to the array, read off
    the status of the answer. The status is 200, 201 or 404. An answer 201
    is to a POST, and the body of the request is the new last record,
    after the records of before. An answer 404 leaves the array as it is.
    An answer 200 is to a GET, and the array is as it was; or to a PATCH,
    and the array is the one [update] made for the id of the path and the
    body, [update] having found the id, with as many records as before; or
    to a DELETE, and the array is the one [remove] made for the id of the
    path, [remove] having found the id, with one record less. *)
Theorem handler_effect (rt : runtime) (req : request) (st : Product.store)
  (resp : response) (st' : Product.store) :
  handler rt req st = Ok (resp, st') ->
  let id := VNum (ToNumber.Number (Str.split "/" (pathname req) !! 2)) in
  (statusCode resp = 200%Z \/ statusCode resp = 201%Z \/
   statusCode resp = 404%Z) /\
  (statusCode resp = 201%Z ->
   method req = "POST" /\
   exists r, json_body req = Some r /\ st' = st ++ [r]) /\
  (statusCode resp = 404%Z -> st' = st) /\
  (statusCode resp = 200%Z ->
   (method req = "GET" /\ st' = st) \/
   (method req = "PATCH" /\
    exists data, json_body req = Some data /\
      Product.update st id data = (true, st') /\
      length st' = length st) \/
   (method req = "DELETE" /\
    Product.remove st id = (true, st') /\
    length st' + 1 = length st)).
Proof.
  cbv zeta.
  destruct (decide (method req = "GET")) as [Hg | Hg];
    [| destruct (decide (method req = "POST")) as [Hp | Hp];
       [| destruct (decide (method req = "PATCH")) as [Hpa | Hpa];
          [| destruct (decide (method req = "DELETE")) as [Hd | Hd]]]].
  - intros H. destruct (handler_GET _ _ _ _ _ Hg H) as [-> Hs].
    split; [tauto |]. split; [| split].
    + intros E. rewrite E in Hs. destruct Hs; discriminate.
    + reflexivity.
    + intros _. left. split; [exact Hg | reflexivity].
  - rewrite (handler_POST _ _ _ Hp).
    destruct (_ && _).
    + destruct (json_body req) as [r|]; [| discriminate].
      intros H. injection H as <- <-.
      split; [right; left; reflexivity |]. split; [| split].
      * intros _. split; [exact Hp |]. exists r. split; reflexivity.
      * discriminate.
      * discriminate.
    + intros H. injection H as <- <-.
      split; [right; right; reflexivity |]. split; [| split].
      * discriminate.
      * reflexivity.
      * discriminate.
  - rewrite (handler_PATCH _ _ _ Hpa).
    destruct (_ && _).
    + destruct (json_body req) as [data|]; [| discriminate].
      destruct (Product.update _ _ _) as [[] st1] eqn:Hu; intros H;
        injection H as <- <-.
      * split; [left; reflexivity |]. split; [| split].
        -- discriminate.
        -- discriminate.
        -- intros _. right. left. split; [exact Hpa |].
           exists data. split; [reflexivity |]. split; [exact Hu |].
           change st1 with (snd (true, st1)). rewrite <- Hu.
           apply update_length.
      * split; [right; right; reflexivity |]. split; [| split].
        -- discriminate.
        -- intros _. apply (update_false _ _ _ _ Hu).
        -- discriminate.
    + intros H. injection H as <- <-.
      split; [right; right; reflexivity |]. split; [| split].
      * discriminate.
      * reflexivity.
      * discriminate.
  - rewrite (handler_DELETE _ _ _ Hd).
    destruct (_ && _).
    + destruct (Product.remove _ _) as [[] st1] eqn:Hr; intros H;
        injection H as <- <-.
      * split; [left; reflexivity |]. split; [| split].
        -- discriminate.
        -- discriminate.
        -- intros _. right. right. split; [exact Hd |].
           split; [reflexivity | apply (remove_length _ _ _ Hr)].
      * split; [right; right; reflexivity |]. split; [| split].
        -- discriminate.
        -- intros _. apply (remove_false _ _ _ Hr).
        -- discriminate.
    + intros H. injection H as <- <-.
      split; [right; right; reflexivity |]. split; [| split].
      * discriminate.
      * reflexivity.
      * discriminate.
  - unfold handler. cbv zeta.
    rewrite (proj2 (String.eqb_neq _ _) Hg), (proj2 (String.eqb_neq _ _) Hp),
      (proj2 (String.eqb_neq _ _) Hpa), (proj2 (String.eqb_neq _ _) Hd).
    intros H. injection H as <- <-.
    split; [right; right; reflexivity |]. split; [| split].
    + discriminate.
    + reflexivity.
    + discriminate.
Qed.

(** [DELETE /products/1002] on the seed array, and [POST /products]. *)
Lemma handler_effect_witness :
  let del := Request "DELETE" "/products/1002" QAbsent None in
  let st' := [Product.record 1001 "T-Shirt" "ABC-1001" 49900;
              Product.record 1003 "Jeans" "ABC-1003" 99900] in
  handler example_runtime del Product.products =
    Ok (jsonResponse 200 (statusOnly "OK"), st') /\
  Product.remove Product.products
    (VNum (ToNumber.Number (Str.split "/" (pathname del) !! 2))) = (true, st') /\
  length st' + 1 = length Product.products.
Proof.
  cbv zeta.
  assert (H : handler example_runtime
                (Request "DELETE" "/products/1002" QAbsent None)
                Product.products =
              Ok (jsonResponse 200 (statusOnly "OK"),
                  [Product.record 1001 "T-Shirt" "ABC-1001" 49900;
                   Product.record 1003 "Jeans" "ABC-1003" 99900]))
    by (vm_compute; reflexivity).
  split; [exact H |].
  destruct (handler_effect _ _ _ _ _ H) as (_ & _ & _ & H200).
  destruct (H200 eq_refl) as [[Hm _] | [[Hm _] | (_ & Hr & Hl)]];
    [discriminate Hm | discriminate Hm |].
  split; [exact Hr | exact Hl].
Defined.

Lemma item_request (seg : string) (m : string) (q : query_value)
  (b : option object) :
  Str.split "/" seg = [seg] ->
  length (Str.split "/" (pathname (Request m ("/products/" ++ seg) q b))) = 3 /\
  Str.split "/" (pathname (Request m ("/products/" ++ seg) q b)) !! 1
    = Some "products" /\
  Str.split "/" (pathname (Request m ("/products/" ++ seg) q b)) !! 2
    = Some seg.
Proof.
  intros H. cbn [pathname]. rewrite (item_path seg H). repeat split.
Qed.

(** X13. [PATCH /products/<seg>] and then [GET /products/<seg>]: when some
    record has the id that the segment converts to, the PATCH answers 200
    and the GET answers 200 with the record that was found first, its
    [title], [sku] and [price] replaced by the values of the body that are
    neither absent nor [null]. *)
Theorem patch_then_get (rt : runtime) (st : Product.store) (seg : string)
  (data : object) (q q' : query_value) (b' : option object) :
  Str.split "/" seg = [seg] ->
  Num.isInteger (ToNumber.of_string seg) = true ->
  present (VNum (ToNumber.of_string seg)) st ->
  exists st' target target',
    Product.getById st (VNum (ToNumber.of_string seg)) = Some target /\
    handler rt (Request "PATCH" ("/products/" ++ seg) q (Some data)) st =
      Ok (jsonResponse 200 (statusOnly "OK"), st') /\
    handler rt (Request "GET" ("/products/" ++ seg) q' b') st' =
      Ok (jsonResponse 200
            (VObj {[ "status" := VStr "OK"; "product" := VObj target' ]}), st') /\
    (forall k,
        get_prop target' k =
        if bool_decide (k ∈ updatable)
        then coalesce (get_prop data k) (get_prop target k)
        else get_prop target k).
Proof.
  intros Hseg Hint (before & target & after & Hfm)%present_first_match.
  exists (before ++ updated data target :: after), target, (updated data target).
  pose proof (first_match_updated _ _ _ _ _ data Hfm) as (_ & Hb' & Ht').
  pose proof Hfm as (Hst & Hb & Ht).
  destruct (item_request seg "PATCH" q (Some data) Hseg) as (L1 & R1 & I1).
  destruct (item_request seg "GET" q' b' Hseg) as (L2 & R2 & I2).
  split; [| split; [| split]].
  - subst st. apply find_first; assumption.
  - rewrite (handler_item_patch _ _ _ L1 R1); rewrite ?I1; try exact Hint;
      try reflexivity.
    cbn [json_body ToNumber.Number].
    rewrite (update_first_match _ _ _ _ _ data Hfm). reflexivity.
  - rewrite (handler_item_get _ _ _ L2 R2); rewrite ?I2; try exact Hint;
      try reflexivity.
    cbn [ToNumber.Number]. unfold Product.getById.
    rewrite (find_first _ _ _ _ Hb' Ht'). reflexivity.
  - intros k. apply updated_get.
Qed.

Lemma patch_then_get_witness :
  exists st' target target',
    Product.getById Product.products (VNum (ToNumber.of_string "1002"))
      = Some target /\
    handler example_runtime
      (Request "PATCH" "/products/1002" QAbsent
         (Some {[ "price" := VNum (Num.of_Z 0) ]})) Product.products =
      Ok (jsonResponse 200 (statusOnly "OK"), st') /\
    handler example_runtime (Request "GET" "/products/1002" QAbsent None) st' =
      Ok (jsonResponse 200
            (VObj {[ "status" := VStr "OK"; "product" := VObj target' ]}), st') /\
    (forall k,
        get_prop target' k =
        if bool_decide (k ∈ updatable)
        then coalesce (get_prop ({[ "price" := VNum (Num.of_Z 0) ]} : object) k)
               (get_prop target k)
        else get_prop target k).
Proof.
  apply (patch_then_get example_runtime Product.products "1002"
           {[ "price" := VNum (Num.of_Z 0) ]} QAbsent QAbsent None).
  - reflexivity.
  - vm_compute. reflexivity.
  - exact products_has_1002.
Defined.

(** X14. [POST /products] appends and [GET /products] lists in the order
    of insertion: after a POST with a record as its body, the list is the
    list of before with that record at its end. *)
Theorem post_then_list (rt : runtime) (st : Product.store) (r : object)
  (q q' : query_value) (b' : option object) :
  handler rt (Request "POST" "/products" q (Some r)) st =
    Ok (jsonResponse 201
          (VObj {[ "status" := VStr "Created";
                   "message" := VStr "Product created successfully" ]}),
        st ++ [r]) /\
  handler rt (Request "GET" "/products" q' b') (st ++ [r]) =
    Ok (jsonResponse 200
          (VObj {[ "status" := VStr "OK";
                   "products" := VArr ((VObj <$> st) ++ [VObj r]) ]}),
        st ++ [r]).
Proof.
  split; [reflexivity |].
  unfold handler. cbn [pathname method query_input json_body].
  cbn [String.eqb Ascii.eqb Bool.eqb andb orb].
  unfold Product.all. rewrite fmap_app. reflexivity.
Qed.

(** X15. A POST never replaces a record: when some record has the id that
    the segment converts to, [GET /products/<seg>] is answered after a
    [POST /products] of any record as it was answered before it. *)
Theorem post_keeps_first (rt : runtime) (st : Product.store) (r : object)
  (seg : string) (q q' : query_value) (b' : option object) :
  Str.split "/" seg = [seg] ->
  Num.isInteger (ToNumber.of_string seg) = true ->
  present (VNum (ToNumber.of_string seg)) st ->
  exists resp st',
    handler rt (Request "GET" ("/products/" ++ seg) q' b') st = Ok (resp, st) /\
    handler rt (Request "POST" "/products" q (Some r)) st
      = Ok (jsonResponse 201
              (VObj {[ "status" := VStr "Created";
                       "message" := VStr "Product created successfully" ]}), st') /\
    handler rt (Request "GET" ("/products/" ++ seg) q' b') st' = Ok (resp, st').
Proof.
  intros Hseg Hint (before & target & after & Hfm)%present_first_match.
  destruct (item_request seg "GET" q' b' Hseg) as (L & R & I).
  exists (jsonResponse 200
            (VObj {[ "status" := VStr "OK"; "product" := VObj target ]})),
    (Product.add st r).
  assert (Hget : Product.getById st (VNum (ToNumber.of_string seg)) = Some target).
  { destruct Hfm as (-> & Hb & Ht). apply find_first; assumption. }
  split; [| split; [reflexivity |]].
  - rewrite (handler_item_get _ _ _ L R); rewrite ?I; try exact Hint;
      try reflexivity.
    cbn [ToNumber.Number]. rewrite Hget. reflexivity.
  - rewrite (handler_item_get _ _ _ L R); rewrite ?I; try exact Hint;
      try reflexivity.
    cbn [ToNumber.Number]. unfold Product.getById, Product.add.
    rewrite find_app. fold (Product.getById st (VNum (ToNumber.of_string seg))).
    rewrite Hget. reflexivity.
Qed.

Lemma post_keeps_first_witness :
  exists resp st',
    handler example_runtime (Request "GET" "/products/1002" QAbsent None)
      Product.products = Ok (resp, Product.products) /\
    handler example_runtime
      (Request "POST" "/products" QAbsent
         (Some (Product.record 1002 "Hat" "X-1" 1000))) Product.products
      = Ok (jsonResponse 201
              (VObj {[ "status" := VStr "Created";
                       "message" := VStr "Product created successfully" ]}), st') /\
    handler example_runtime (Request "GET" "/products/1002" QAbsent None) st'
      = Ok (resp, st').
Proof.
  apply (post_keeps_first example_runtime Product.products
           (Product.record 1002 "Hat" "X-1" 1000) "1002" QAbsent QAbsent None).
  - reflexivity.
  - vm_compute. reflexivity.
  - exact products_has_1002.
Defined.

Lemma handler_echo (rt : runtime) (st : Product.store) (b : option object)
  (s : jsstring) :
  s <> [] ->
  handler rt (Request "GET" "/echo" (QString s) b) st =
  Ok (jsonResponse 200 (echoData rt s), st).
Proof. intros Hs. destruct s; [congruence | reflexivity]. Qed.

Lemma rev_not_empty (s : jsstring) : s <> [] -> rev s <> [].
Proof.
  intros Hs E. apply Hs. rewrite <- (rev_involutive s), E. reflexivity.
Qed.

Lemma ascii_upper_idempotent (u : N) :
  ascii_upper (ascii_upper u) = ascii_upper u.
Proof.
  unfold ascii_upper.
  destruct ((97 <=? u) && (u <=? 122))%N eqn:E; [| rewrite E; reflexivity].
  apply andb_true_iff in E as [E1 E2].
  apply N.leb_le in E1. apply N.leb_le in E2.
  assert (E3 : ((97 <=? u - 32) && (u - 32 <=? 122))%N = false).
  { apply andb_false_iff. left. apply N.leb_gt. lia. }
  rewrite E3. reflexivity.
Qed.

Lemma ascii_text_upper (s : jsstring) :
  ascii_text s = true -> ascii_text (map ascii_upper s) = true.
Proof.
  unfold ascii_text. rewrite !forallb_forall.
  intros H v [u [<- Hu]]%in_map_iff. apply ascii_upper_below, H, Hu.
Qed.

Lemma ascii_text_rev (s : jsstring) :
  ascii_text s = true -> ascii_text (rev s) = true.
Proof.
  unfold ascii_text. rewrite !forallb_forall. intros H u Hu.
  apply H. apply in_rev. exact Hu.
Qed.

(** X16. The echo route on its own output. Sent the [backwards] of a
    non-empty string [s], it answers with [s] as [backwards] and with the
    [characterCount] of [s]. For ASCII text, the [shouty] of that answer is
    the [shouty] of [s] backwards, and, sent the [shouty] of [s], the route
    answers with that same string as [normal] and as [shouty]. *)
Theorem echo_of_echo (rt : runtime) (st : Product.store) (b : option object)
  (s : jsstring) :
  s <> [] ->
  handler rt (Request "GET" "/echo" (QString (rev s)) b) st =
    Ok (jsonResponse 200
          (VObj {[ "normal" := VStr (rev s);
                   "shouty" := VStr (toUpperCase rt (rev s));
                   "characterCount" := VNum (Num.of_Z (Z.of_nat (length s)));
                   "backwards" := VStr s ]}), st) /\
  (ascii_text s = true ->
   toUpperCase rt (rev s) = rev (toUpperCase rt s) /\
   handler rt (Request "GET" "/echo" (QString (toUpperCase rt s)) b) st =
     Ok (jsonResponse 200
           (VObj {[ "normal" := VStr (toUpperCase rt s);
                    "shouty" := VStr (toUpperCase rt s);
                    "characterCount" := VNum (Num.of_Z (Z.of_nat (length s)));
                    "backwards" := VStr (rev (toUpperCase rt s)) ]}), st)).
Proof.
  intros Hs. split.
  - rewrite (handler_echo _ _ _ _ (rev_not_empty s Hs)). unfold echoData.
    rewrite join_rev_split_chars, rev_involutive, length_rev. reflexivity.
  - intros Ha. split.
    + rewrite (toUpperCase_ascii rt _ (ascii_text_rev s Ha)),
        (toUpperCase_ascii rt s Ha).
      apply map_rev.
    + assert (Hne : toUpperCase rt s <> []).
      { rewrite (toUpperCase_ascii rt s Ha). destruct s; [congruence | discriminate]. }
      rewrite (handler_echo _ _ _ _ Hne). unfold echoData.
      rewrite join_rev_split_chars.
      assert (Hi : toUpperCase rt (toUpperCase rt s) = toUpperCase rt s).
      { rewrite (toUpperCase_ascii rt s Ha).
        rewrite (toUpperCase_ascii rt _ (ascii_text_upper s Ha)).
        rewrite map_map. apply map_ext. intros u. apply ascii_upper_idempotent. }
      assert (Hl : length (toUpperCase rt s) = length s).
      { rewrite (toUpperCase_ascii rt s Ha). apply length_map. }
      rewrite Hi, Hl. reflexivity.
Qed.

(** [GET /echo?input=cba] and [GET /echo?input=ABC], for [s = abc]. *)
Lemma echo_of_echo_witness :
  handler example_runtime (Request "GET" "/echo" (QString "cba") None)
    Product.products =
    Ok (jsonResponse 200
          (VObj {[ "normal" := VStr "cba";
                   "shouty" := VStr "CBA";
                   "characterCount" := VNum (Num.of_Z 3);
                   "backwards" := VStr "abc" ]}), Product.products) /\
  handler example_runtime (Request "GET" "/echo" (QString "ABC") None)
    Product.products =
    Ok (jsonResponse 200
          (VObj {[ "normal" := VStr "ABC";
                   "shouty" := VStr "ABC";
                   "characterCount" := VNum (Num.of_Z 3);
                   "backwards" := VStr "CBA" ]}), Product.products).
Proof.
  assert (Hs : ("abc" : jsstring) <> []) by discriminate.
  assert (Ha : ascii_text ("abc" : jsstring) = true) by reflexivity.
  destruct (echo_of_echo example_runtime Product.products None "abc" Hs)
    as [H1 H2].
  destruct (H2 Ha) as [_ H3].
  split.
  - assert (E : QString "cba" = QString (rev ("abc" : jsstring)))
      by (vm_compute; reflexivity).
    rewrite E, H1. vm_compute. reflexivity.
  - assert (E : QString "ABC" = QString (toUpperCase example_runtime "abc"))
      by (vm_compute; reflexivity).
    rewrite E, H3. vm_compute. reflexivity.
Defined.

(** X17. The routes that write need their exact shape: a POST whose path is
    not two segments with [products] as the resource, and a PATCH or DELETE
    whose path is not three segments with [products] as the resource and an
    id segment that converts to an integer, get the 404 HTML fallback and
    leave the array as it is. *)
Theorem write_routes_shape (rt : runtime) (req : request) (st : Product.store) :
  (method req = "POST" ->
   length (Str.split "/" (pathname req)) <> 2 \/
   Str.split "/" (pathname req) !! 1 <> Some "products" ->
   handler rt req st = Ok (notFoundResponse, st)) /\
  (method req = "PATCH" \/ method req = "DELETE" ->
   length (Str.split "/" (pathname req)) <> 3 \/
   Str.split "/" (pathname req) !! 1 <> Some "products" \/
   Num.isInteger (ToNumber.Number (Str.split "/" (pathname req) !! 2)) = false ->
   handler rt req st = Ok (notFoundResponse, st)).
Proof.
  split.
  - intros Hm H. rewrite (handler_POST _ _ _ Hm).
    destruct (_ && _) eqn:Hc; [| reflexivity].
    apply andb_true_iff in Hc as [Hl Hr].
    apply Nat.eqb_eq in Hl. apply is_string_true in Hr. tauto.
  - intros Hm H.
    assert (Hc : (length (Str.split "/" (pathname req)) =? 3)%nat
                 && is_string (Str.split "/" (pathname req) !! 1) "products"
                 && Num.isInteger
                      (ToNumber.Number (Str.split "/" (pathname req) !! 2))
                 = false).
    { destruct (_ && _) eqn:Hc; [| reflexivity].
      apply route_guard in Hc as (Hl & Hr & Hi).
      destruct H as [H | [H | H]]; [tauto | tauto | congruence]. }
    destruct Hm as [Hm | Hm].
    + rewrite (handler_PATCH _ _ _ Hm), Hc. reflexivity.
    + rewrite (handler_DELETE _ _ _ Hm), Hc. reflexivity.
Qed.

Lemma write_routes_shape_witness :
  handler example_runtime
    (Request "POST" "/products/7" QAbsent (Some (Product.record 7 "a" "b" 1)))
    Product.products = Ok (notFoundResponse, Product.products) /\
  handler example_runtime (Request "DELETE" "/products" QAbsent None)
    Product.products = Ok (notFoundResponse, Product.products) /\
  handler example_runtime
    (Request "PATCH" "/products/1.5" QAbsent (Some ∅))
    Product.products = Ok (notFoundResponse, Product.products).
Proof.
  split; [| split].
  - apply (proj1 (write_routes_shape example_runtime
                    (Request "POST" "/products/7" QAbsent
                       (Some (Product.record 7 "a" "b" 1)))
                    Product.products)).
    + reflexivity.
    + left. discriminate.
  - apply (proj2 (write_routes_shape example_runtime
                    (Request "DELETE" "/products" QAbsent None)
                    Product.products)).
    + right. reflexivity.
    + left. discriminate.
  - apply (proj2 (write_routes_shape example_runtime
                    (Request "PATCH" "/products/1.5" QAbsent (Some ∅))
                    Product.products)).
    + left. reflexivity.
    + right. right. vm_compute. reflexivity.
Defined.

Lemma split_length (sep : ascii) (s : string) : 1 <= length (Str.split sep s).
Proof.
  induction s as [|c s IH]; simpl; [lia |].
  destruct (Ascii.eqb c sep); simpl; [lia |].
  destruct (Str.split sep s); simpl in *; lia.
Qed.

Lemma no_slash_not_static (x : string) :
  Str.split "/" x = [x] -> String.prefix "static/" x = false.
Proof.
  intros H. destruct (String.prefix "static/" x) eqn:E; [| reflexivity].
  apply prefix_app in E as [r ->].
  change (Str.split "/" ("static/" ++ r)%string)
    with ("static" :: Str.split "/" r) in H.
  pose proof (split_length "/" r) as L.
  destruct (Str.split "/" r); simpl in *; [lia | discriminate].
Qed.

(** X18. A path of one segment that is none of the known ones gets the 404
    HTML fallback, for every method: among them [/mern], [/mongodb],
    [/express], [/react] and [/nodejs], which the home page links to, and
    [/static] without a file part. *)
Theorem unknown_path_not_found (rt : runtime) (st : Product.store)
  (m x : string) (q : query_value) (b : option object) :
  Str.split "/" x = [x] ->
  x ∉ [""; "home"; "plain-text"; "json"; "echo"; "products"] ->
  handler rt (Request m ("/" ++ x) q b) st = Ok (notFoundResponse, st).
Proof.
  intros Hx Hn.
  assert (F : forall y, y ∈ [""; "home"; "plain-text"; "json"; "echo"; "products"] ->
              String.eqb x y = false).
  { intros y Hy. apply String.eqb_neq. intros ->. exact (Hn Hy). }
  unfold handler. cbn [pathname method query_input json_body].
  change ("/" ++ x)%string with (String "/" x).
  change (Str.split "/" (String "/" x)) with ("" :: Str.split "/" x).
  rewrite Hx. unfold Str.startsWith.
  change (String.prefix "/static/" (String "/" x))
    with (String.prefix "static/" x).
  rewrite (no_slash_not_static x Hx).
  cbn [String.eqb Ascii.eqb Bool.eqb length lookup list_lookup is_string Nat.eqb].
  rewrite (F "") by (repeat constructor).
  rewrite (F "home") by (repeat constructor).
  rewrite (F "plain-text") by (repeat constructor).
  rewrite (F "json") by (repeat constructor).
  rewrite (F "echo") by (repeat constructor).
  rewrite (F "products") by (repeat constructor).
  rewrite ?andb_false_r. reflexivity.
Qed.

Lemma unknown_path_not_found_witness :
  handler example_runtime (Request "GET" "/mern" QAbsent None)
    Product.products = Ok (notFoundResponse, Product.products) /\
  handler example_runtime (Request "GET" "/static" QAbsent None)
    Product.products = Ok (notFoundResponse, Product.products).
Proof.
  split.
  - apply (unknown_path_not_found example_runtime Product.products
             "GET" "mern" QAbsent None eq_refl).
    rewrite !elem_of_cons, elem_of_nil. intuition discriminate.
  - apply (unknown_path_not_found example_runtime Product.products
             "GET" "static" QAbsent None eq_refl).
    rewrite !elem_of_cons, elem_of_nil. intuition discriminate.
Defined.

(** X19. [GET /static/<rest>] for a file that is not there gets the 404
    HTML fallback, whatever the extension, and leaves the array as it is. *)
Theorem static_missing_file (rt : runtime) (st : Product.store)
  (q : query_value) (b : option object) (rest : string) :
  existsSync rt (Path.join [dirname rt; "public"; rest]) = false ->
  handler rt (Request "GET" ("/static/" ++ rest) q b) st
  = Ok (notFoundResponse, st).
Proof.
  intros Hex.
  unfold handler. cbn [pathname method query_input json_body].
  rewrite replace_at_start. change ("" ++ rest)%string with rest.
  unfold staticFileResponse. rewrite Hex.
  unfold Str.startsWith. rewrite prefix_append. reflexivity.
Qed.

Lemma static_missing_file_witness :
  handler example_runtime (Request "GET" "/static/missing.txt" QAbsent None)
    Product.products = Ok (notFoundResponse, Product.products).
Proof.
  apply (static_missing_file example_runtime Product.products QAbsent None
           "missing.txt").
  reflexivity.
Defined.

(** X20. Deleting twice: when exactly one record has the id that the
    segment converts to, the first [DELETE /products/<seg>] answers 200 and
    the second one answers 404 and changes nothing. *)
Theorem delete_twice (rt : runtime) (st : Product.store) (seg : string)
  (q q' : query_value) (b b' : option object) :
  Str.split "/" seg = [seg] ->
  Num.isInteger (ToNumber.of_string seg) = true ->
  occurrences (VNum (ToNumber.of_string seg)) st = 1 ->
  exists st',
    handler rt (Request "DELETE" ("/products/" ++ seg) q b) st =
      Ok (jsonResponse 200 (statusOnly "OK"), st') /\
    handler rt (Request "DELETE" ("/products/" ++ seg) q' b') st' =
      Ok (jsonResponse 404 (statusOnly "Not Found"), st').
Proof.
  intros Hseg Hint (before & target & after & Hfm & Ha)%single_occurrence.
  exists (before ++ after).
  destruct (item_request seg "DELETE" q b Hseg) as (L1 & R1 & I1).
  destruct (item_request seg "DELETE" q' b' Hseg) as (L2 & R2 & I2).
  split.
  - rewrite (handler_item_delete _ _ _ L1 R1); rewrite ?I1; try exact Hint;
      try reflexivity.
    cbn [ToNumber.Number].
    rewrite (remove_first_match _ _ _ _ _ Hfm). reflexivity.
  - rewrite (handler_item_delete _ _ _ L2 R2); rewrite ?I2; try exact Hint;
      try reflexivity.
    cbn [ToNumber.Number].
    rewrite remove_no_match; [reflexivity |].
    destruct Hfm as (_ & Hb & _). apply Forall_app. split; assumption.
Qed.

Lemma delete_twice_witness :
  exists st',
    handler example_runtime (Request "DELETE" "/products/1003" QAbsent None)
      Product.products = Ok (jsonResponse 200 (statusOnly "OK"), st') /\
    handler example_runtime (Request "DELETE" "/products/1003" QAbsent None) st'
      = Ok (jsonResponse 404 (statusOnly "Not Found"), st').
Proof.
  apply (delete_twice example_runtime Product.products "1003"
           QAbsent QAbsent None None).
  - reflexivity.
  - vm_compute. reflexivity.
  - vm_compute. reflexivity.
Defined.

(** X21. Adding and removing undo each other: after [add(r)], where no
    record had the id of [r], [remove] of that id returns [true] and gives
    back the array of before. Over HTTP: a POST of the record and then a
    DELETE of its id leave the array as it was. *)
Theorem add_then_remove (st : Product.store) (r : object) (X : value) :
  Product.has_id X r = true ->
  no_match X st ->
  Product.remove (Product.add st r) X = (true, st) /\
  (forall rt seg q q' b',
      Str.split "/" seg = [seg] ->
      Num.isInteger (ToNumber.of_string seg) = true ->
      X = VNum (ToNumber.of_string seg) ->
      exists st',
        handler rt (Request "POST" "/products" q (Some r)) st =
          Ok (jsonResponse 201
                (VObj {[ "status" := VStr "Created";
                         "message" := VStr "Product created successfully" ]}),
              st') /\
        handler rt (Request "DELETE" ("/products/" ++ seg) q' b') st' =
          Ok (jsonResponse 200 (statusOnly "OK"), st)).
Proof.
  intros Hr Hn.
  assert (Hrm : Product.remove (Product.add st r) X = (true, st)).
  { rewrite (remove_first_match X (Product.add st r) st r []).
    - rewrite app_nil_r. reflexivity.
    - repeat split; assumption. }
  split; [exact Hrm |].
  intros rt seg q q' b' Hseg Hint ->. exists (Product.add st r).
  split; [reflexivity |].
  destruct (item_request seg "DELETE" q' b' Hseg) as (L & R & I).
  rewrite (handler_item_delete _ _ _ L R); rewrite ?I; try exact Hint;
    try reflexivity.
  cbn [ToNumber.Number]. rewrite Hrm. reflexivity.
Qed.

Lemma add_then_remove_witness :
  let hat := Product.record 2000 "Hat" "X-1" 1000 in
  Product.remove (Product.add Product.products hat) (VNum (Num.of_Z 2000))
  = (true, Product.products).
Proof.
  cbv zeta.
  apply (add_then_remove Product.products
           (Product.record 2000 "Hat" "X-1" 1000) (VNum (Num.of_Z 2000))).
  - vm_compute. reflexivity.
  - repeat (constructor; [vm_compute; reflexivity |]). constructor.
Defined.

(** X22. [update] leaves the lookups by other ids alone: for an id that the
    record changed by [update(id, ...)] does not have, [getById] after the
    update returns what it returned before. *)
Theorem getById_other_after_update (st : Product.store) (id id' : value)
  (data : object)
  (before : Product.store) (target : object) (after : Product.store) :
  first_match id st before target after ->
  Product.has_id id' target = false ->
  Product.getById (snd (Product.update st id data)) id'
  = Product.getById st id'.
Proof.
  intros Hfm Hid'. rewrite (update_first_match _ _ _ _ _ data Hfm). simpl.
  destruct Hfm as (-> & _ & _). unfold Product.getById.
  rewrite !find_app. simpl. rewrite updated_has_id, Hid'. reflexivity.
Qed.

Lemma getById_other_after_update_witness :
  Product.getById
    (snd (Product.update
            (Product.add Product.products (Product.record 1002 "Hat" "X-1" 1000))
            (VNum (Num.of_Z 1002)) {[ "title" := VStr "Beanie" ]}))
    (VNum (Num.of_Z 1003))
  = Product.getById
      (Product.add Product.products (Product.record 1002 "Hat" "X-1" 1000))
      (VNum (Num.of_Z 1003)).
Proof.
  apply (getById_other_after_update _ _ _ _ _ _ _ duplicate_first_match).
  vm_compute. reflexivity.
Defined.
